(** * cdk-eventbridge-appsync-oauth: the stack declared by [cdk/lib/main.ts]

    The stack is configuration: two mapping templates (strings in the
    Velocity template language), one event pattern, one input transformer
    and a dozen construct declarations.  This development embeds

    - the string operations the file performs ([String.prototype.replace]
      with the regular expression [/\n\s*/g]),
    - the two mapping templates, as the very strings of the source, parsed
      and run by a small interpreter of the template language,
    - the constructor of [MainStack] as a program in a state-and-exception
      monad over the construct tree,
    - the two pieces of the event service the declarations configure: event
      pattern matching and the input transformer.  *)

From Stdlib Require Import String Ascii List ZArith Bool Lia.
From stdpp Require Import base option list gmap strings.
Import ListNotations.

Local Open Scope string_scope.

(** ** Characters and strings of the source *)

Module Chars.

(** U+000A, the character [\n]. *)
Definition nl : ascii := ascii_of_nat 10.
(** U+0022, the double quote. *)
Definition dq : ascii := ascii_of_nat 34.

Definition NL : string := String nl EmptyString.
Definition DQ : string := String dq EmptyString.

(** ["s"], the text [s] between double quotes. *)
Definition q (s : string) : string := String dq (s +:+ DQ).

(** The lines of a multi-line literal, joined by [\n]. *)
Fixpoint lines (ls : list string) : string :=
  match ls with
  | [] => EmptyString
  | [l] => l
  | l :: ls' => l +:+ String nl (lines ls')
  end.

End Chars.
Import Chars.

(** ** JavaScript: [s.replace(/\n\s*/g, ' ')] *)

Module JS.

(** A string is a string of bytes here: it is a string of JavaScript when
    it is ASCII, and the literals of [main.ts] are.  [is_space] is the
    class [\s] on the characters below U+0080: tab, line feed, vertical tab,
    form feed, carriage return and space.  The class also holds U+00A0,
    U+FEFF and the Unicode space separators, which no byte is: on a string
    that is not ASCII the functions below are not those of JavaScript. *)
Definition is_space (c : ascii) : bool :=
  let n := nat_of_ascii c in
  ((9 <=? n)%nat && (n <=? 13)%nat) || (n =? 32)%nat.

Definition is_newline (c : ascii) : bool := (nat_of_ascii c =? 10)%nat.

(** The global replacement as a scanner: [skipping] holds while the
    scanner is inside a match, that is after a [\n] and the white space
    that followed it so far.  The match is greedy, so every white space
    character extends it (a further [\n] too); the first other character
    ends it.  Outside a match a [\n] starts one and is replaced by the
    single space; any other character is copied. *)
Fixpoint replace_go (skipping : bool) (s : string) : string :=
  match s with
  | EmptyString => EmptyString
  | String c r =>
      if skipping && is_space c then replace_go true r
      else if is_newline c then String " " (replace_go true r)
      else String c (replace_go false r)
  end.

(** [s.replace(/\n\s*/g, ' ')] *)
Definition replace_nl_ws (s : string) : string := replace_go false s.

(** The longest prefix matched by [\s*] removed. *)
Fixpoint skip_spaces (s : string) : string :=
  match s with
  | EmptyString => EmptyString
  | String c r => if is_space c then skip_spaces r else s
  end.

(** JavaScript's [a || b] on values that are a string or [undefined]:
    the empty string and [undefined] are falsy. *)
Definition or_else (a b : option string) : option string :=
  match a with
  | Some s => if String.eqb s EmptyString then b else a
  | None => b
  end.

End JS.

(** ** JSON values *)

#[warnings="-register-all"]
Inductive json :=
| JNull
| JBool (b : bool)
| JNum (n : Z)
| JStr (s : string)
| JArr (l : list json)
| JObj (m : gmap string json).

(** ** The mapping template language

    A mapping template is a string; the GraphQL service parses it as a
    Velocity template and runs it against the request context.  The fragment
    below is the one the two templates of [main.ts] are written in:
    text, the [#set] directive, and references with property and method
    paths.  The closing parenthesis of a directive takes the blanks and the
    end of line that follow it, as the engine's grammar has it; the one of a
    method call does not.  (The engine also drops blanks in front of a
    directive on its line; the templates have none.) *)

Module VTL.

#[warnings="-register-all"]
Inductive expr :=
| EStr (s : string)                                  (* a quoted literal *)
| ERef (x : string)                                  (* [$x] *)
| EProp (e : expr) (p : string)                      (* [e.p] *)
| ECall (e : expr) (m : string) (args : list expr).  (* [e.m(args)] *)

Inductive node :=
| Text (s : string)
| SetDirective (x : string) (e : expr)               (* [#set( $x = e )] *)
| Interp (e : expr).                                 (* a reference in the text *)

(** *** Parsing *)

Definition is_letter (c : ascii) : bool :=
  let n := nat_of_ascii c in
  ((65 <=? n)%nat && (n <=? 90)%nat) || ((97 <=? n)%nat && (n <=? 122)%nat).

Definition is_ident_char (c : ascii) : bool :=
  let n := nat_of_ascii c in
  is_letter c || ((48 <=? n)%nat && (n <=? 57)%nat) || (n =? 95)%nat || (n =? 45)%nat.

Definition is_blank (c : ascii) : bool :=
  let n := nat_of_ascii c in (n =? 32)%nat || (n =? 9)%nat.

(** The longest run of identifier characters at the head of [s], and the rest. *)
Fixpoint ident (s : string) : string * string :=
  match s with
  | String c r =>
      if is_ident_char c then let '(x, r') := ident r in (String c x, r')
      else (EmptyString, s)
  | EmptyString => (EmptyString, EmptyString)
  end.

(** The text up to the closing double quote, and what follows the quote. *)
Fixpoint until_quote (s : string) : option (string * string) :=
  match s with
  | String c r =>
      if Ascii.eqb c dq then Some (EmptyString, r)
      else '(x, r') ← until_quote r; Some (String c x, r')
  | EmptyString => None
  end.

Fixpoint skip_blank (s : string) : string :=
  match s with
  | String c r => if is_blank c then skip_blank r else s
  | EmptyString => EmptyString
  end.

(** [s] without its prefix [p], when it has it. *)
Fixpoint strip_prefix (p s : string) : option string :=
  match p, s with
  | EmptyString, _ => Some s
  | String a p', String b s' => if Ascii.eqb a b then strip_prefix p' s' else None
  | String _ _, EmptyString => None
  end.

Definition is_empty (s : string) : bool :=
  match s with EmptyString => true | _ => false end.

(** References: [$x], then any number of [.p] and [.m(e, ..., e)]. *)
Fixpoint parse_expr (fuel : nat) (s : string) : option (expr * string) :=
  match fuel with
  | O => None
  | S fuel =>
      match s with
      | String c r =>
          if Ascii.eqb c "$" then
            let '(x, r1) := ident r in
            if is_empty x then None else parse_path fuel (ERef x) r1
          else if Ascii.eqb c dq then
            '(lit, r1) ← until_quote r; Some (EStr lit, r1)
          else None
      | EmptyString => None
      end
  end
with parse_path (fuel : nat) (e : expr) (s : string) : option (expr * string) :=
  match fuel with
  | O => None
  | S fuel =>
      match s with
      | String "." r =>
          let '(p, r1) := ident r in
          if is_empty p then Some (e, s)
          else match r1 with
               | String "(" r2 =>
                   '(args, r3) ← parse_args fuel (skip_blank r2);
                   parse_path fuel (ECall e p args) r3
               | _ => parse_path fuel (EProp e p) r1
               end
      | _ => Some (e, s)
      end
  end
with parse_args (fuel : nat) (s : string) : option (list expr * string) :=
  match fuel with
  | O => None
  | S fuel =>
      match s with
      | String ")" r => Some ([], r)
      | _ => parse_more fuel s
      end
  end
with parse_more (fuel : nat) (s : string) : option (list expr * string) :=
  match fuel with
  | O => None
  | S fuel =>
      '(e, r1) ← parse_expr fuel s;
      match skip_blank r1 with
      | String "," r2 =>
          '(es, r3) ← parse_more fuel (skip_blank r2); Some (e :: es, r3)
      | String ")" r2 => Some ([e], r2)
      | _ => None
      end
  end.

(** A character of text in front of the nodes [ns]. *)
Definition text (c : ascii) (ns : list node) : list node :=
  match ns with
  | Text s :: ns' => Text (String c s) :: ns'
  | _ => Text (String c EmptyString) :: ns
  end.

Definition starts_reference (s : string) : bool :=
  match s with
  | String "$" (String c _) => is_letter c
  | _ => false
  end.

(** What follows the closing parenthesis of a directive: blanks and the
    end of line ([\n], [\r] or [\r\n]) are part of the parenthesis when
    both are there, and nothing is otherwise. *)
Definition eat_line_end (s : string) : string :=
  match skip_blank s with
  | String c r =>
      if Ascii.eqb c nl then r
      else if Ascii.eqb c (ascii_of_nat 13) then
        match r with
        | String c' r' => if Ascii.eqb c' nl then r' else r
        | EmptyString => r
        end
      else s
  | EmptyString => s
  end.

Fixpoint parse_nodes (fuel : nat) (s : string) : option (list node) :=
  match fuel with
  | O => None
  | S fuel =>
      match s with
      | EmptyString => Some []
      | String c r =>
          match strip_prefix "#set(" s with
          | Some r1 =>
              match skip_blank r1 with
              | String "$" r2 =>
                  let '(x, r3) := ident r2 in
                  if is_empty x then None else
                  match skip_blank r3 with
                  | String "=" r4 =>
                      '(e, r5) ← parse_expr (String.length r4) (skip_blank r4);
                      match skip_blank r5 with
                      | String ")" r6 =>
                          ns ← parse_nodes fuel (eat_line_end r6);
                          Some (SetDirective x e :: ns)
                      | _ => None
                      end
                  | _ => None
                  end
              | _ => None
              end
          | None =>
              if starts_reference s then
                '(e, r1) ← parse_expr (String.length s) s;
                ns ← parse_nodes fuel r1; Some (Interp e :: ns)
              else
                ns ← parse_nodes fuel r; Some (text c ns)
          end
      end
  end.

(** The fuel bounds the number of nodes; every node takes a character
    at least. *)
Definition parse (s : string) : option (list node) :=
  parse_nodes (S (String.length s)) s.

(** *** Evaluation *)

(** What a reference can stand for: data, nothing (the result of a void
    method), one of the service's objects, or the argument map of the
    request, which is shared and mutable: [VArgs] is the map itself, not a
    copy of it. *)
Inductive value :=
| VJson (j : json)
| VVoid
| VUtil                   (* [$util] *)
| VTime                   (* [$util.time] *)
| VContext                (* [$context], also written [$ctx] *)
| VArgs.                  (* [$context.args] *)

Record state := State {
  args : gmap string json;       (* [$context.args] *)
  result : json;                 (* [$context.result] *)
  vars : gmap string value;      (* the variables bound by [#set] *)
  reads : nat;                   (* how often the clock was read *)
}.

Definition set_args (a : gmap string json) (σ : state) : state :=
  State a (result σ) (vars σ) (reads σ).
Definition set_var (x : string) (v : value) (σ : state) : state :=
  State (args σ) (result σ) (<[x := v]> (vars σ)) (reads σ).
Definition tick (σ : state) : state :=
  State (args σ) (result σ) (vars σ) (S (reads σ)).

Section Engine.

(** The service's clock, [now n] being the ISO-8601 time at its [n]-th
    reading, and its JSON serializer. *)
Variable now : nat -> string.
Variable toJson : json -> string.

Definition lookup_ref (x : string) (σ : state) : option value :=
  if String.eqb x "util" then Some VUtil
  else if String.eqb x "context" || String.eqb x "ctx" then Some VContext
  else vars σ !! x.

Definition get_prop (v : value) (p : string) (σ : state) : option value :=
  match v with
  | VUtil => if String.eqb p "time" then Some VTime else None
  | VContext =>
      if String.eqb p "args" || String.eqb p "arguments" then Some VArgs
      else if String.eqb p "result" then Some (VJson (result σ))
      else None
  | VArgs => Some (VJson (default JNull (args σ !! p)))
  | VJson (JObj m) => Some (VJson (default JNull (m !! p)))
  | _ => None
  end.

(** The data a value denotes at the time it is used. *)
Definition to_json (v : value) (σ : state) : option json :=
  match v with
  | VJson j => Some j
  | VArgs => Some (JObj (args σ))
  | _ => None
  end.

Definition call (v : value) (m : string) (ws : list value) (σ : state)
  : option (value * state) :=
  match v, ws with
  | VTime, [] =>
      if String.eqb m "nowISO8601"
      then Some (VJson (JStr (now (reads σ))), tick σ) else None
  | VUtil, [w] =>
      if String.eqb m "qr" then Some (VVoid, σ)
      else if String.eqb m "toJson"
      then j ← to_json w σ; Some (VJson (JStr (toJson j)), σ)
      else None
  | VArgs, [VJson (JStr k); w] =>
      if String.eqb m "put"
      then j ← to_json w σ;
           Some (VJson (default JNull (args σ !! k)), set_args (<[k := j]> (args σ)) σ)
      else None
  | _, _ => None
  end.

Fixpoint eval (e : expr) (σ : state) : option (value * state) :=
  match e with
  | EStr s => Some (VJson (JStr s), σ)
  | ERef x => v ← lookup_ref x σ; Some (v, σ)
  | EProp e' p => '(v, σ1) ← eval e' σ; w ← get_prop v p σ1; Some (w, σ1)
  | ECall e' m es =>
      '(v, σ1) ← eval e' σ;
      '(ws, σ2) ←
        (fix eval_list (es : list expr) (σ : state) : option (list value * state) :=
           match es with
           | [] => Some ([], σ)
           | a :: es' =>
               '(w, σ') ← eval a σ;
               '(ws, σ'') ← eval_list es' σ';
               Some (w :: ws, σ'')
           end) es σ1;
      call v m ws σ2
  end.

(** What a value prints as in the text. *)
Definition render (v : value) : option string :=
  match v with
  | VJson (JStr s) => Some s
  | VVoid => Some EmptyString
  | _ => None
  end.

Fixpoint exec (ns : list node) (σ : state) : option (string * state) :=
  match ns with
  | [] => Some (EmptyString, σ)
  | Text s :: ns' => '(o, σ') ← exec ns' σ; Some (s +:+ o, σ')
  | SetDirective x e :: ns' =>
      '(v, σ1) ← eval e σ; exec ns' (set_var x v σ1)
  | Interp e :: ns' =>
      '(v, σ1) ← eval e σ;
      s ← render v;
      '(o, σ') ← exec ns' σ1; Some (s +:+ o, σ')
  end.

(** The template [t] run on the request [σ]: the document it renders and
    the state it leaves. *)
Definition run (t : string) (σ : state) : option (string * state) :=
  ns ← parse t; exec ns σ.

End Engine.

End VTL.

(** ** [main.ts]: the mapping templates *)

Definition requestTemplate : string := lines [
  EmptyString;
  "#set( $createdAt = $util.time.nowISO8601() )";
  "$util.qr($context.args.put(" +:+ q "createdAt" +:+ ", $createdAt))";
  "$util.qr($context.args.put(" +:+ q "updatedAt" +:+ ", $createdAt))";
  "{";
  "  " +:+ q "version" +:+ ": " +:+ q "2017-02-28" +:+ ",";
  "  " +:+ q "payload" +:+ ": $util.toJson($ctx.args)";
  "}" ].

Definition responseTemplate : string := "$util.toJson($context.result)".


(** ** The construct library, as far as [main.ts] uses it *)

Module Cdk.

(** *** Strings with tokens

    A property of a construct is not known before deployment; where the
    source reads one ([bus.attrName], [api.arn]) the string holds a token
    naming the construct and the property.  A template literal
    concatenates text and tokens. *)
Inductive frag :=
| Lit (s : string)
| Attr (construct attr : string)         (* [construct.attr] *)
| StackAttr (attr : string).             (* [this.attr] *)

Definition tstring := list frag.

(** A construct object, named by its id. *)
Definition handle := string.

Definition attr (h : handle) (a : string) : tstring := [Attr h a].
Definition lit (s : string) : tstring := [Lit s].
Definition this (a : string) : tstring := [StackAttr a].

(** A template literal: its pieces of text and its substitutions, in order. *)
Definition template (parts : list tstring) : tstring := List.concat parts.

(** The constructs a string takes a token from. *)
Definition frag_constructs (f : frag) : list handle :=
  match f with Attr c _ => [c] | _ => [] end.
Definition constructs_in (t : tstring) : list handle :=
  flat_map frag_constructs t.

Inductive ServicePrincipal := servicePrincipal (service : string).

Module StackProps.
Record t := { stackName : option string; description : option string }.
End StackProps.

Module CfnParameter.
Record Props := { type : string; description : string }.
End CfnParameter.

Module Auth.
Record Props := { authDomainPrefix : tstring }.
End Auth.

Inductive Runtime := PYTHON_3_8.

Module PythonFunction.
Record Props := {
  entry : string;
  index : string;
  runtime : Runtime;
  environment : list (string * tstring);
}.
End PythonFunction.

Inductive AuthorizationType := API_KEY | IAM | OIDC | USER_POOL | LAMBDA.

Definition is_API_KEY (a : AuthorizationType) : bool :=
  match a with API_KEY => true | _ => false end.

Inductive Schema := Schema_fromAsset (filePath : string).

Module GraphqlApi.
Record LambdaAuthorizerConfig := { handler : handle }.
Record AuthorizationMode := {
  authorizationType : AuthorizationType;
  lambdaAuthorizerConfig : option LambdaAuthorizerConfig;
}.
Record AuthorizationConfig := {
  defaultAuthorization : AuthorizationMode;
  additionalAuthorizationModes : list AuthorizationMode;
}.
Record Props := {
  name : string;
  schema : Schema;
  authorizationConfig : AuthorizationConfig;
}.
(** The API object: its id in the tree and its [apiKey] property, which
    is a string or [undefined]. *)
Record t := { node : handle; apiKey : option tstring }.

Definition modes (c : AuthorizationConfig) : list AuthorizationMode :=
  defaultAuthorization c :: additionalAuthorizationModes c.

End GraphqlApi.

Module Permission.
Record Props := {
  principal : ServicePrincipal;
  sourceArn : tstring;
  sourceAccount : option string;
}.
End Permission.

Inductive MappingTemplate := MappingTemplate_fromString (template : string).

Module Resolver.
Record Props := {
  typeName : string;
  fieldName : string;
  requestMappingTemplate : MappingTemplate;
  responseMappingTemplate : MappingTemplate;
}.
End Resolver.

Module CfnEventBus.
Record Props := { name : string }.
End CfnEventBus.

Module CfnConnection.
Record ClientParameters := { ClientID : tstring; ClientSecret : tstring }.
Record BodyParameter := { Key : string; Value : string }.
Record OAuthHttpParameters := { BodyParameters : list BodyParameter }.
Record OAuthParameters := {
  AuthorizationEndpoint : tstring;
  ClientParameters_ : ClientParameters;
  HttpMethod : string;
  OAuthHttpParameters_ : OAuthHttpParameters;
}.
Record AuthParameters := { OAuthParameters_ : OAuthParameters }.
Record Props := {
  authorizationType : string;
  authParameters : AuthParameters;
}.
End CfnConnection.

Module CfnApiDestination.
Record Props := {
  connectionArn : tstring;
  httpMethod : string;
  invocationEndpoint : tstring;
}.
End CfnApiDestination.

Module Role.
Record PolicyStatement := { resources : list tstring; actions : list string }.
Record PolicyDocument := { statements : list PolicyStatement }.
Record Props := {
  assumedBy : ServicePrincipal;
  inlinePolicies : list (string * PolicyDocument);
}.
End Role.

Module CfnRule.
Record InputTransformer := {
  inputPathsMap : list (string * string);
  inputTemplate : string;
}.
Record Target := {
  id : string;
  arn : tstring;
  roleArn : tstring;
  inputTransformer : InputTransformer;
}.
(** An event pattern: the values allowed for each field it names. *)
Definition EventPattern := list (string * list string).
Record Props := {
  name : string;
  eventBusName : tstring;
  eventPattern : EventPattern;
  targets : list Target;
}.
End CfnRule.

Module CfnOutput.
(** [value: any]: a string, or [undefined]. *)
Record Props := { value : option tstring }.
End CfnOutput.

(** *** The construct tree *)

Inductive Construct :=
| CfnParameter_ (id : string) (props : CfnParameter.Props)
| Auth_ (id : string) (props : Auth.Props)
| PythonFunction_ (id : string) (props : PythonFunction.Props)
| GraphqlApi_ (id : string) (props : GraphqlApi.Props)
| Permission_ (fn : handle) (id : string) (props : Permission.Props)
| NoneDataSource_ (api : handle) (id : string)
| Resolver_ (dataSource : handle) (props : Resolver.Props)
| CfnEventBus_ (id : string) (props : CfnEventBus.Props)
| CfnConnection_ (id : string) (props : CfnConnection.Props)
| CfnApiDestination_ (id : string) (props : CfnApiDestination.Props)
| Role_ (id : string) (props : Role.Props)
| CfnRule_ (id : string) (props : CfnRule.Props)
| CfnOutput_ (id : string) (props : CfnOutput.Props).

(** The path of a construct below the stack.  A permission is a child of
    its function, a data source of its API and a resolver of its data
    source. *)
Definition path_of (c : Construct) : string :=
  match c with
  | CfnParameter_ id _ | Auth_ id _ | PythonFunction_ id _ | GraphqlApi_ id _
  | CfnEventBus_ id _ | CfnConnection_ id _ | CfnApiDestination_ id _
  | Role_ id _ | CfnRule_ id _ | CfnOutput_ id _ => id
  | Permission_ parent id _ | NoneDataSource_ parent id => parent +:+ "/" +:+ id
  | Resolver_ ds p =>
      ds +:+ "/" +:+ Resolver.typeName p +:+ Resolver.fieldName p +:+ "Resolver"
  end.

(** The stack as [main.ts] builds it: the constructs its constructor
    declares, and the dependencies its constructor declares itself by
    [addDependsOn].  What the library declares inside its own constructs
    (their children, and the dependencies between those) is the library's
    and is no part of this record: see [dependencies]. *)
Record Stack := {
  scope : string;                            (* the path of the scope, empty for the App *)
  stackId : string;
  stackProps : option StackProps.t;
  children : list Construct;                 (* in the order of declaration *)
  dependsOn : list (handle * handle);        (* [(a, b)]: [a.addDependsOn(b)] *)
}.

(** The path of the stack in the tree of the App. *)
Definition stack_path (s : Stack) : string :=
  match scope s with
  | EmptyString => stackId s
  | _ => scope s +:+ "/" +:+ stackId s
  end.

(** All the dependencies declared in the stack: those the library
    declares when it makes a construct, [library c] for the construct [c],
    and those of the constructor itself. *)
Definition dependencies (library : Construct -> list (handle * handle)) (s : Stack)
  : list (handle * handle) :=
  (flat_map library (children s) ++ dependsOn s)%list.

(** [super(scope, id, props)] *)
Definition Stack_new (scope : string) (id : string) (props : option StackProps.t) : Stack :=
  {| scope := scope; stackId := id; stackProps := props; children := []; dependsOn := [] |}.

(** *** The constructor monad: the tree as state, exceptions *)

Inductive outcome (A : Type) :=
| Ok (a : A)
| Throw (message : string).
Arguments Ok {A} a.
Arguments Throw {A} message.

Definition M (A : Type) : Type := Stack -> outcome A * Stack.

#[global] Instance M_ret : MRet M := λ A a s, (Ok a, s).
#[global] Instance M_bind : MBind M := λ A B f m s,
  match m s with
  | (Ok a, s') => f a s'
  | (Throw e, s') => (Throw e, s')
  end.

Definition has_path (p : string) (s : Stack) : bool :=
  existsb (λ c, String.eqb (path_of c) p) (children s).

(** A construct enters the tree when it is constructed; its scope refuses
    a second child of the same name. *)
Definition new (c : Construct) : M handle := λ s,
  if has_path (path_of c) s
  then (Throw ("There is already a Construct with name " +:+ path_of c), s)
  else (Ok (path_of c),
        {| scope := scope s; stackId := stackId s; stackProps := stackProps s;
           children := children s ++ [c]; dependsOn := dependsOn s |}).

(** [a.addDependsOn(b)] *)
Definition addDependsOn (a b : handle) : M unit := λ s,
  (Ok (),
   {| scope := scope s; stackId := stackId s; stackProps := stackProps s;
      children := children s; dependsOn := dependsOn s ++ [(a, b)] |}).

(** TypeScript's [x!]: a note to the type checker, [x] at run time. *)
Definition non_null {A} (x : option A) : option A := x.

(** [new cdk.CfnOutput(this, id, props)]: the output enters the tree
    ([super(scope, id)]), and then its constructor throws when the value is
    [undefined], naming the path of the output. *)
Definition CfnOutput_new (id : string) (props : CfnOutput.Props) : M handle :=
  h ← new (CfnOutput_ id props);
  match CfnOutput.value props with
  | Some _ => mret h
  | None => λ s,
      (Throw ("Missing value for CloudFormation output at path "
              +:+ q (stack_path s +:+ "/" +:+ id)), s)
  end.

(** *** References between constructs *)

Definition Role_strings (p : Role.Props) : list tstring :=
  flat_map (λ d, flat_map Role.resources (Role.statements d.2)) (Role.inlinePolicies p).

Definition Target_strings (t : CfnRule.Target) : list tstring :=
  [CfnRule.arn t; CfnRule.roleArn t].

(** The strings with tokens among the properties of a construct. *)
Definition strings_of (c : Construct) : list tstring :=
  match c with
  | CfnParameter_ _ _ => []
  | Auth_ _ p => [Auth.authDomainPrefix p]
  | PythonFunction_ _ p => map snd (PythonFunction.environment p)
  | GraphqlApi_ _ _ => []
  | Permission_ _ _ p => [Permission.sourceArn p]
  | NoneDataSource_ _ _ => []
  | Resolver_ _ _ => []
  | CfnEventBus_ _ _ => []
  | CfnConnection_ _ p =>
      let o := CfnConnection.OAuthParameters_ (CfnConnection.authParameters p) in
      [CfnConnection.AuthorizationEndpoint o;
       CfnConnection.ClientID (CfnConnection.ClientParameters_ o);
       CfnConnection.ClientSecret (CfnConnection.ClientParameters_ o)]
  | CfnApiDestination_ _ p =>
      [CfnApiDestination.connectionArn p; CfnApiDestination.invocationEndpoint p]
  | Role_ _ p => Role_strings p
  | CfnRule_ _ p => CfnRule.eventBusName p :: flat_map Target_strings (CfnRule.targets p)
  | CfnOutput_ _ p =>
      match CfnOutput.value p with
      | Some v => [v]
      | None => []
      end
  end.

Definition mode_handles (m : GraphqlApi.AuthorizationMode) : list handle :=
  match GraphqlApi.lambdaAuthorizerConfig m with
  | Some c => [GraphqlApi.handler c]
  | None => []
  end.

(** The construct objects a construct is given, or is made on. *)
Definition objects_of (c : Construct) : list handle :=
  match c with
  | GraphqlApi_ _ p => flat_map mode_handles (GraphqlApi.modes (GraphqlApi.authorizationConfig p))
  | Permission_ fn _ _ => [fn]
  | NoneDataSource_ api _ => [api]
  | Resolver_ ds _ => [ds]
  | _ => []
  end.

(** [references c]: the constructs an output or the object of which is an
    input of [c]. *)
Definition references (c : Construct) : list handle :=
  objects_of c ++ flat_map constructs_in (strings_of c).

End Cdk.

(** ** The event service, as far as the rule configures it *)

Module EventBridge.
Import Cdk.

(** An event is a JSON object. *)
Definition field (k : string) (j : json) : option json :=
  match j with
  | JObj m => m !! k
  | _ => None
  end.

(** *** Event patterns: every field the pattern names holds one of the
    values listed for it. *)
Definition allowed (vs : list string) (v : option json) : bool :=
  match v with
  | Some (JStr s) => existsb (String.eqb s) vs
  | _ => false
  end.

Definition matches (p : CfnRule.EventPattern) (event : json) : bool :=
  forallb (λ kv, allowed kv.2 (field kv.1 event)) p.

(** *** Paths into the event: [$.a.b] *)
Fixpoint split_on (sep : ascii) (s : string) : list string :=
  match s with
  | EmptyString => [EmptyString]
  | String c r =>
      if Ascii.eqb c sep then EmptyString :: split_on sep r
      else match split_on sep r with
           | x :: xs => String c x :: xs
           | [] => [String c EmptyString]
           end
  end.

Definition path_keys (p : string) : option (list string) :=
  match split_on "." p with
  | root :: ks => if String.eqb root "$" then Some ks else None
  | [] => None
  end.

Fixpoint select (ks : list string) (j : json) : option json :=
  match ks with
  | [] => Some j
  | k :: ks' => j' ← field k j; select ks' j'
  end.

Definition extract (p : string) (event : json) : option json :=
  ks ← path_keys p; select ks event.

(** *** The input transformer: the template with [<key>] filled in *)
Inductive piece :=
| Text (s : string)
| Hole (key : string).

(** [s] before and after its first [sep]. *)
Fixpoint split_at (sep : ascii) (s : string) : option (string * string) :=
  match s with
  | EmptyString => None
  | String c r =>
      if Ascii.eqb c sep then Some (EmptyString, r)
      else '(a, b) ← split_at sep r; Some (String c a, b)
  end.

Fixpoint assoc {A} (k : string) (l : list (string * A)) : option A :=
  match l with
  | [] => None
  | (k', a) :: l' => if String.eqb k k' then Some a else assoc k l'
  end.

(** What follows a [<] of the template: a key of the paths map and [>],
    or text. *)
Definition chunk (keys : list string) (c : string) : list piece :=
  match split_at ">" c with
  | Some (k, rest) =>
      if existsb (String.eqb k) keys then [Hole k; Text rest]
      else [Text (String "<" c)]
  | None => [Text (String "<" c)]
  end.

Definition pieces (keys : list string) (template : string) : list piece :=
  match split_on "<" template with
  | [] => []
  | t :: cs => Text t :: flat_map (chunk keys) cs
  end.

Fixpoint concat_strings (l : list string) : string :=
  match l with
  | [] => EmptyString
  | s :: l' => s +:+ concat_strings l'
  end.

Section Transformer.

(** How the service writes a value selected from the event, or the
    missing one. *)
Variable print : option json -> string.

Definition fill (paths : list (string * string)) (event : json) (p : piece) : string :=
  match p with
  | Text s => s
  | Hole k => print (path ← assoc k paths; extract path event)
  end.

(** The body of the request sent to the target for [event]. *)
Definition transform (t : CfnRule.InputTransformer) (event : json) : string :=
  let paths := CfnRule.inputPathsMap t in
  concat_strings
    (map (fill paths event) (pieces (map fst paths) (CfnRule.inputTemplate t))).

End Transformer.

End EventBridge.

(** ** [main.ts]: the stack *)

Import Cdk.

(** The literal of the input template, before [replace]. *)
Definition inputTemplate_literal : string := lines [
  "{";
  "              " +:+ q "query" +:+ ": " +:+ DQ +:+ "mutation UpdateTodo($id:ID!, $name:String, $description:String) {";
  "                updateTodo(id:$id, name:$name, description:$description) { id name description createdAt updatedAt }";
  "              }" +:+ DQ +:+ ",";
  "              " +:+ q "variables" +:+ ": {";
  "                " +:+ q "id" +:+ ": " +:+ q "<id>" +:+ ",";
  "                " +:+ q "name" +:+ ": " +:+ q "<name>" +:+ ",";
  "                " +:+ q "description" +:+ ": " +:+ q "<description>";
  "              }";
  "            }" ].

Section MainStack.

(** [__dirname], [path.join] and [process.env]. *)
Variable dirname : string.
Variable join : string -> string -> string.
Variable env : string -> option string.

(** The [apiKey] property the library gives a [GraphqlApi] made with
    these id and properties: a string, or [undefined]. *)
Variable GraphqlApi_apiKey : string -> GraphqlApi.Props -> option tstring.

Definition GraphqlApi_new (id : string) (props : GraphqlApi.Props) : M GraphqlApi.t :=
  h ← new (GraphqlApi_ id props);
  mret {| GraphqlApi.node := h; GraphqlApi.apiKey := GraphqlApi_apiKey id props |}.

Definition constructor : M unit :=
  authDomainParameter ← new (CfnParameter_ "authDomainName" {|
    CfnParameter.type := "String";
    CfnParameter.description := "Unique domain name for auth" |});

  auth ← new (Auth_ "Auth" {|
    Auth.authDomainPrefix := attr authDomainParameter "valueAsString" |});

  authorizerFunction ← new (PythonFunction_ "AuthorizerFunction" {|
    PythonFunction.entry := join dirname "authorizer";
    PythonFunction.index := "app.py";
    PythonFunction.runtime := PYTHON_3_8;
    PythonFunction.environment := [
      ("USER_POOL_ID", attr auth "userPoolId");
      ("APP_CLIENT_ID", attr auth "destinationClientId") ] |});

  api ← GraphqlApi_new "Api" {|
    GraphqlApi.name := "TriggeredByEventBridge";
    GraphqlApi.schema := Schema_fromAsset (join dirname "schema.graphql");
    GraphqlApi.authorizationConfig := {|
      GraphqlApi.defaultAuthorization := {|
        GraphqlApi.authorizationType := API_KEY;
        GraphqlApi.lambdaAuthorizerConfig := None |};
      GraphqlApi.additionalAuthorizationModes := [
        {| GraphqlApi.authorizationType := LAMBDA;
           GraphqlApi.lambdaAuthorizerConfig :=
             Some {| GraphqlApi.handler := authorizerFunction |} |} ] |} |};

  new (Permission_ authorizerFunction "AppSyncInvokeLambdaPermission" {|
    Permission.principal := servicePrincipal "appsync.amazonaws.com";
    Permission.sourceArn := attr (GraphqlApi.node api) "arn";
    Permission.sourceAccount :=
      JS.or_else (env "CDK_DEPLOYED_ACCOUNT") (env "CDK_DEFAULT_ACCOUNT") |});;

  noneDS ← new (NoneDataSource_ (GraphqlApi.node api) "NONE");
  new (Resolver_ noneDS {|
    Resolver.typeName := "Mutation";
    Resolver.fieldName := "updateTodo";
    Resolver.requestMappingTemplate := MappingTemplate_fromString requestTemplate;
    Resolver.responseMappingTemplate := MappingTemplate_fromString responseTemplate |});;

  bus ← new (CfnEventBus_ "bus" {| CfnEventBus.name := "todos" |});

  connection ← new (CfnConnection_ "connection" {|
    CfnConnection.authorizationType := "OAUTH_CLIENT_CREDENTIALS";
    CfnConnection.authParameters := {|
      CfnConnection.OAuthParameters_ := {|
        CfnConnection.AuthorizationEndpoint :=
          template [attr auth "authEndpoint"; lit "/oauth2/token"];
        CfnConnection.ClientParameters_ := {|
          CfnConnection.ClientID := attr auth "destinationClientId";
          CfnConnection.ClientSecret := attr auth "destinationClientSecret" |};
        CfnConnection.HttpMethod := "POST";
        CfnConnection.OAuthHttpParameters_ := {|
          CfnConnection.BodyParameters := [
            {| CfnConnection.Key := "grant_type";
               CfnConnection.Value := "client_credentials" |} ] |} |} |} |});

  destination ← new (CfnApiDestination_ "destination" {|
    CfnApiDestination.connectionArn := attr connection "attrArn";
    CfnApiDestination.httpMethod := "POST";
    CfnApiDestination.invocationEndpoint := attr (GraphqlApi.node api) "graphqlUrl" |});

  role ← new (Role_ "role" {|
    Role.assumedBy := servicePrincipal "events.amazonaws.com";
    Role.inlinePolicies := [
      ("invokeAPI", {|
        Role.statements := [
          {| Role.resources := [
               template [lit "arn:aws:events:"; this "region"; lit ":"; this "account";
                         lit ":api-destination/"; attr destination "ref"; lit "/*"] ];
             Role.actions := ["events:InvokeApiDestination"] |} ] |}) ] |});

  rule ← new (CfnRule_ "rule" {|
    CfnRule.name := "default-todo-rule";
    CfnRule.eventBusName := attr bus "attrName";
    CfnRule.eventPattern := [
      ("source", ["todos.system"]);
      ("detail-type", ["todos update"]) ];
    CfnRule.targets := [
      {| CfnRule.id := "default-target-appsync";
         CfnRule.arn := attr destination "attrArn";
         CfnRule.roleArn := attr role "roleArn";
         CfnRule.inputTransformer := {|
           CfnRule.inputPathsMap := [
             ("id", "$.detail.todo-id");
             ("name", "$.detail.name");
             ("description", "$.detail.description") ];
           CfnRule.inputTemplate := JS.replace_nl_ws inputTemplate_literal |} |} ] |});
  addDependsOn rule bus;;

  CfnOutput_new "apiId" {|
    CfnOutput.value := Some (attr (GraphqlApi.node api) "apiId") |};;
  CfnOutput_new "apiName" {|
    CfnOutput.value := Some (attr (GraphqlApi.node api) "name") |};;
  CfnOutput_new "graphqlUrl" {|
    CfnOutput.value := Some (attr (GraphqlApi.node api) "graphqlUrl") |};;
  CfnOutput_new "apiKey" {|
    CfnOutput.value := non_null (GraphqlApi.apiKey api) |};;
  mret ().

(** [new MainStack(scope, id, props)]: how the constructor ends, and the
    tree it leaves. *)
Definition MainStack (scope : string) (id : string) (props : option StackProps.t)
  : outcome unit * Stack :=
  constructor (Stack_new scope id props).

End MainStack.

(** ** Reading the tree *)

(** The construct at a path. *)
Definition child (p : string) (s : Stack) : option Construct :=
  List.find (λ c, String.eqb (path_of c) p) (children s).

Definition paths (s : Stack) : list string := map path_of (children s).

Definition rules (s : Stack) : list CfnRule.Props :=
  omap (λ c, match c with CfnRule_ _ p => Some p | _ => None end) (children s).

Definition connections (s : Stack) : list CfnConnection.Props :=
  omap (λ c, match c with CfnConnection_ _ p => Some p | _ => None end) (children s).

Definition resolvers (s : Stack) : list (handle * Resolver.Props) :=
  omap (λ c, match c with Resolver_ ds p => Some (ds, p) | _ => None end) (children s).

Definition template_string (t : MappingTemplate) : string :=
  match t with MappingTemplate_fromString s => s end.

(** The mapping templates of the tree, resolver by resolver. *)
Definition mapping_templates (s : Stack) : list string :=
  flat_map (λ r, [template_string (Resolver.requestMappingTemplate r.2);
                  template_string (Resolver.responseMappingTemplate r.2)])
           (resolvers s).

(** *** Dependencies *)

(** [a] declared a dependency on [b]. *)
Definition declares (s : Stack) (a b : handle) : bool :=
  existsb (λ d, String.eqb d.1 a && String.eqb d.2 b) (dependsOn s).

(** [a] has an output of [b], or [b] itself, among its inputs. *)
Definition refers (s : Stack) (a b : handle) : bool :=
  existsb (λ c, String.eqb (path_of c) a && existsb (String.eqb b) (references c))
          (children s).

Definition all_pairs (s : Stack) (P : handle -> handle -> bool) : bool :=
  forallb (λ a, forallb (P a) (paths s)) (paths s).

(** No construct declares a dependency on another. *)
Definition no_declared_dependency (s : Stack) : bool :=
  all_pairs s (λ a b, negb (declares s a b)).

(** *** Shapes *)

Definition has_newline (s : string) : bool :=
  existsb JS.is_newline (list_ascii_of_string s).

(** The arguments with the time [t] put under the two keys, [createdAt]
    first. *)
Definition stamped (t : string) (args : gmap string json) : gmap string json :=
  <["updatedAt" := JStr t]> (<["createdAt" := JStr t]> args).

(** The document of the request template around a payload. *)
Definition request_document (payload : string) : string := lines [
  EmptyString;
  EmptyString;
  EmptyString;
  "{";
  "  " +:+ q "version" +:+ ": " +:+ q "2017-02-28" +:+ ",";
  "  " +:+ q "payload" +:+ ": " +:+ payload;
  "}" ].

Definition UpdateTodo_mutation : string :=
  "mutation UpdateTodo($id:ID!, $name:String, $description:String) { updateTodo(id:$id, name:$name, description:$description) { id name description createdAt updatedAt } }".

(** The request body around the three variables. *)
Definition UpdateTodo_request (id name description : string) : string :=
  "{ " +:+ q "query" +:+ ": " +:+ q UpdateTodo_mutation +:+ ", "
  +:+ q "variables" +:+ ": { "
  +:+ q "id" +:+ ": " +:+ DQ +:+ id +:+ DQ +:+ ", "
  +:+ q "name" +:+ ": " +:+ DQ +:+ name +:+ DQ +:+ ", "
  +:+ q "description" +:+ ": " +:+ DQ +:+ description +:+ DQ +:+ " } }".


(** *** An instance of what the stack is given *)

Module Sample.

Definition dirname : string := "/app/cdk/lib".
Definition join (a b : string) : string := a +:+ "/" +:+ b.
Definition env (name : string) : option string := None.

(** An API has a key when one of its authorization modes is [API_KEY]. *)
Definition apiKey (id : string) (p : GraphqlApi.Props) : option tstring :=
  if existsb (λ m, is_API_KEY (GraphqlApi.authorizationType m))
             (GraphqlApi.modes (GraphqlApi.authorizationConfig p))
  then Some (attr id "apiKey") else None.

(** An API that never has a key. *)
Definition noKey (id : string) (p : GraphqlApi.Props) : option tstring := None.

Definition stack : outcome unit * Stack :=
  MainStack dirname join env apiKey "App" "MainStack" None.

(** A request to update a todo, before its resolver ran; the clock is
    read for the third time. *)
Definition request : VTL.state :=
  VTL.State (<["id" := JStr "42"]> (<["name" := JStr "milk"]> ∅))
            (JObj (<["id" := JStr "42"]> ∅)) ∅ 2.

Definition now (n : nat) : string :=
  match n with
  | 2 => "2021-06-01T10:00:00.000Z"
  | _ => "2021-06-01T10:00:00.001Z"
  end.

(** A serializer that tells objects by their size only. *)
Definition toJson (j : json) : string :=
  match j with
  | JObj m => if (size m =? 4)%nat then "{4 fields}" else "{...}"
  | _ => "?"
  end.

Definition event : json :=
  JObj (<["source" := JStr "todos.system"]>
        (<["detail-type" := JStr "todos update"]>
         (<["detail" := JObj (<["todo-id" := JStr "42"]>
                              (<["name" := JStr "milk"]> ∅))]> ∅))).

Definition other_event : json :=
  JObj (<["source" := JStr "todos.system"]>
        (<["detail-type" := JStr "todos delete"]> ∅)).

(** A printer: a string as it is, anything else as nothing. *)
Definition print (v : option json) : string :=
  match v with
  | Some (JStr s) => s
  | _ => EmptyString
  end.

End Sample.

(** ** Further readings of strings and of the tree *)

(** The characters of [s] that are not white space, in order. *)
Definition non_spaces (s : string) : list ascii :=
  List.filter (λ c, negb (JS.is_space c)) (list_ascii_of_string s).

(** A string of characters below U+0080, which a byte holds as it is. *)
Definition ascii_only (s : string) : bool :=
  forallb (λ c, (nat_of_ascii c <? 128)%nat) (list_ascii_of_string s).

(** A line that holds white space only. *)
Definition blank (s : string) : bool :=
  String.eqb (JS.skip_spaces s) EmptyString.

(** The strings of [ls] with one space between them. *)
Fixpoint join_space (ls : list string) : string :=
  match ls with
  | [] => EmptyString
  | [l] => l
  | l :: ls' => l +:+ String " " (join_space ls')
  end.

Definition has_char (c : ascii) (s : string) : bool :=
  existsb (Ascii.eqb c) (list_ascii_of_string s).

(** Every construct of [cs] refers to constructs of [seen] or to constructs
    before it in [cs] only. *)
Fixpoint declared_in_order (seen : list handle) (cs : list Construct) : bool :=
  match cs with
  | [] => true
  | c :: cs' =>
      forallb (λ h, existsb (String.eqb h) seen) (references c)
      && declared_in_order (seen ++ [path_of c]) cs'
  end.

Definition frag_eqb (f g : frag) : bool :=
  match f, g with
  | Lit a, Lit b => String.eqb a b
  | Attr c a, Attr d b => String.eqb c d && String.eqb a b
  | StackAttr a, StackAttr b => String.eqb a b
  | _, _ => false
  end.

(** The token [f] stands in one of the strings of [c]. *)
Definition mentions (f : frag) (c : Construct) : bool :=
  existsb (existsb (frag_eqb f)) (strings_of c).

(** The constructor ended on a declaration that its scope refused. *)
Definition refused {A} (o : outcome A) : bool :=
  match o with
  | Throw m => String.prefix "There is already a Construct with name" m
  | Ok _ => false
  end.

(** The outputs of the stack, by name. *)
Definition outputs (s : Stack) : list (string * option tstring) :=
  omap (λ c, match c with CfnOutput_ i p => Some (i, CfnOutput.value p) | _ => None end)
       (children s).

Definition holes (ps : list EventBridge.piece) : list string :=
  flat_map (λ p, match p with EventBridge.Hole k => [k] | _ => [] end) ps.

Definition texts (ps : list EventBridge.piece) : list string :=
  flat_map (λ p, match p with EventBridge.Text t => [t] | _ => [] end) ps.

(** ** Tactics *)

(** Runs the constructor and splits on the one value the tree depends on,
    the API's key. *)
Ltac run_constructor :=
  intros; vm_compute;
  repeat match goal with
         | |- context [match ?f ?i ?p with Some _ => _ | None => _ end] =>
             destruct (f i p)
         end.

(** * Properties *)

(** ** The replacement [/\n\s*/g] *)

Lemma is_newline_is_space c : JS.is_newline c = true -> JS.is_space c = true.
Proof.
  unfold JS.is_newline, JS.is_space. intros H%Nat.eqb_eq. rewrite H. reflexivity.
Qed.

(** Inside a match the scanner drops the white space and goes on as if it
    had started after it. *)
Lemma replace_go_skipping s :
  JS.replace_go true s = JS.replace_go false (JS.skip_spaces s).
Proof.
  induction s as [|c r IH]; [reflexivity|].
  simpl. destruct (JS.is_space c) eqn:Hs; [exact IH|].
  simpl. destruct (JS.is_newline c) eqn:Hn; [|reflexivity].
  apply is_newline_is_space in Hn. congruence.
Qed.

(** The scanner is the regular expression: a match starts at each [\n],
    takes the longest run of white space after it and becomes one space. *)
Lemma replace_nl_ws_newline r :
  JS.replace_nl_ws (String nl r) = String " " (JS.replace_nl_ws (JS.skip_spaces r)).
Proof. unfold JS.replace_nl_ws. simpl. now rewrite replace_go_skipping. Qed.

(** Any other character is copied. *)
Lemma replace_nl_ws_other c r :
  JS.is_newline c = false ->
  JS.replace_nl_ws (String c r) = String c (JS.replace_nl_ws r).
Proof. unfold JS.replace_nl_ws. simpl. now intros ->. Qed.

(** A string with no [\n] is left as it is. *)
Lemma replace_nl_ws_single_line s :
  has_newline s = false -> JS.replace_nl_ws s = s.
Proof.
  unfold has_newline. induction s as [|c r IH]; [reflexivity|].
  simpl. intros [Hc Hr]%orb_false_elim.
  rewrite replace_nl_ws_other by exact Hc. now rewrite IH.
Qed.

Lemma replace_go_no_newline b s : has_newline (JS.replace_go b s) = false.
Proof.
  unfold has_newline. revert b.
  induction s as [|a r IH]; intros b; simpl; [reflexivity|].
  destruct (b && JS.is_space a); [apply IH|].
  destruct (JS.is_newline a) eqn:Hn; simpl; [|rewrite Hn]; apply IH.
Qed.

(** ** The tree of the stack *)

Section Tree.

Variables (dirname : string) (join : string -> string -> string)
          (env : string -> option string)
          (GraphqlApi_apiKey : string -> GraphqlApi.Props -> option tstring)
          (scope id : string) (props : option StackProps.t).

Local Abbreviation tree :=
  (MainStack dirname join env GraphqlApi_apiKey scope id props).2.

Lemma tree_rules :
  rules tree = [
    {| CfnRule.name := "default-todo-rule";
       CfnRule.eventBusName := attr "bus" "attrName";
       CfnRule.eventPattern := [
         ("source", ["todos.system"]);
         ("detail-type", ["todos update"]) ];
       CfnRule.targets := [
         {| CfnRule.id := "default-target-appsync";
            CfnRule.arn := attr "destination" "attrArn";
            CfnRule.roleArn := attr "role" "roleArn";
            CfnRule.inputTransformer := {|
              CfnRule.inputPathsMap := [
                ("id", "$.detail.todo-id");
                ("name", "$.detail.name");
                ("description", "$.detail.description") ];
              CfnRule.inputTemplate := JS.replace_nl_ws inputTemplate_literal |} |} ] |} ].
Proof. run_constructor; reflexivity. Qed.

Lemma tree_dependsOn : dependsOn tree = [("rule", "bus")].
Proof. run_constructor; reflexivity. Qed.

End Tree.

(** ** Event patterns *)

Lemma allowed_one a v :
  EventBridge.allowed [a] v = true <-> v = Some (JStr a).
Proof.
  unfold EventBridge.allowed.
  destruct v as [[| | |s| |]|]; simpl; try (split; [discriminate | intros [=]]).
  rewrite orb_false_r, String.eqb_eq. split; [now intros -> | now intros [=]].
Qed.

Lemma matches_source_detail_type a b event :
  EventBridge.matches [("source", [a]); ("detail-type", [b])] event = true <->
  EventBridge.field "source" event = Some (JStr a) /\
  EventBridge.field "detail-type" event = Some (JStr b).
Proof.
  unfold EventBridge.matches. cbn [forallb fst snd].
  rewrite andb_true_r, andb_true_iff, !allowed_one. reflexivity.
Qed.

(** C2: the stack declares one rule; its event pattern is the source
    todos.system and the detail-type todos update, one fixed string each, so
    an event matches it exactly when these are its source and detail-type. *)
Theorem rule_event_pattern
    (dirname : string) (join : string -> string -> string)
    (env : string -> option string)
    (GraphqlApi_apiKey : string -> GraphqlApi.Props -> option tstring)
    (scope id : string) (props : option StackProps.t) :
  exists r,
    rules (MainStack dirname join env GraphqlApi_apiKey scope id props).2 = [r] /\
    CfnRule.eventPattern r =
      [("source", ["todos.system"]); ("detail-type", ["todos update"])] /\
    forall event,
      EventBridge.matches (CfnRule.eventPattern r) event = true <->
      EventBridge.field "source" event = Some (JStr "todos.system") /\
      EventBridge.field "detail-type" event = Some (JStr "todos update").
Proof.
  eexists. split; [apply tree_rules|]. split; [reflexivity|].
  intros event. apply matches_source_detail_type.
Qed.

(** ** The input transformer *)

Lemma inputTemplate_pieces :
  EventBridge.pieces ["id"; "name"; "description"] (JS.replace_nl_ws inputTemplate_literal) =
  [ EventBridge.Text
      ("{ " +:+ q "query" +:+ ": " +:+ q UpdateTodo_mutation +:+ ", "
       +:+ q "variables" +:+ ": { " +:+ q "id" +:+ ": " +:+ DQ);
    EventBridge.Hole "id";
    EventBridge.Text (DQ +:+ ", " +:+ q "name" +:+ ": " +:+ DQ);
    EventBridge.Hole "name";
    EventBridge.Text (DQ +:+ ", " +:+ q "description" +:+ ": " +:+ DQ);
    EventBridge.Hole "description";
    EventBridge.Text (DQ +:+ " } }") ].
Proof. vm_compute. reflexivity. Qed.

Lemma transform_UpdateTodo print event :
  EventBridge.transform print
    {| CfnRule.inputPathsMap := [
         ("id", "$.detail.todo-id");
         ("name", "$.detail.name");
         ("description", "$.detail.description") ];
       CfnRule.inputTemplate := JS.replace_nl_ws inputTemplate_literal |} event =
  UpdateTodo_request
    (print (EventBridge.extract "$.detail.todo-id" event))
    (print (EventBridge.extract "$.detail.name" event))
    (print (EventBridge.extract "$.detail.description" event)).
Proof.
  unfold EventBridge.transform.
  cbn [CfnRule.inputPathsMap CfnRule.inputTemplate map fst].
  rewrite inputTemplate_pieces.
  reflexivity.
Qed.

(** A path [$.a.b] selects the field [b] of the field [a] of the event. *)
Lemma extract_detail k event :
  EventBridge.path_keys ("$.detail." +:+ k) = Some ["detail"; k] ->
  EventBridge.extract ("$.detail." +:+ k) event =
  EventBridge.field "detail" event ≫= EventBridge.field k.
Proof.
  intros H. unfold EventBridge.extract. rewrite H. simpl.
  destruct (EventBridge.field "detail" event) as [d|]; simpl; [|reflexivity].
  now destruct (EventBridge.field k d).
Qed.

(** C3: the rule has one target, the API destination, whose endpoint is the
    URL of the GraphQL API; the transformer of the target takes the three
    paths $.detail.todo-id, $.detail.name and $.detail.description from the
    event, and the request body is the constant UpdateTodo request around
    the three values: two events that agree on them give the same body. *)
Theorem mutation_request_shape
    (dirname : string) (join : string -> string -> string)
    (env : string -> option string)
    (GraphqlApi_apiKey : string -> GraphqlApi.Props -> option tstring)
    (scope id : string) (props : option StackProps.t) :
  exists r t d g,
    rules (MainStack dirname join env GraphqlApi_apiKey scope id props).2 = [r] /\
    CfnRule.targets r = [t] /\
    child "destination" (MainStack dirname join env GraphqlApi_apiKey scope id props).2
      = Some (CfnApiDestination_ "destination" d) /\
    child "Api" (MainStack dirname join env GraphqlApi_apiKey scope id props).2
      = Some (GraphqlApi_ "Api" g) /\
    CfnRule.arn t = attr "destination" "attrArn" /\
    CfnApiDestination.invocationEndpoint d = attr "Api" "graphqlUrl" /\
    CfnRule.inputPathsMap (CfnRule.inputTransformer t) =
      [("id", "$.detail.todo-id"); ("name", "$.detail.name");
       ("description", "$.detail.description")] /\
    (forall print event,
       EventBridge.transform print (CfnRule.inputTransformer t) event =
       UpdateTodo_request
         (print (EventBridge.field "detail" event ≫= EventBridge.field "todo-id"))
         (print (EventBridge.field "detail" event ≫= EventBridge.field "name"))
         (print (EventBridge.field "detail" event ≫= EventBridge.field "description"))) /\
    (forall print e1 e2,
       EventBridge.extract "$.detail.todo-id" e1 = EventBridge.extract "$.detail.todo-id" e2 ->
       EventBridge.extract "$.detail.name" e1 = EventBridge.extract "$.detail.name" e2 ->
       EventBridge.extract "$.detail.description" e1 = EventBridge.extract "$.detail.description" e2 ->
       EventBridge.transform print (CfnRule.inputTransformer t) e1 =
       EventBridge.transform print (CfnRule.inputTransformer t) e2).
Proof.
  do 4 eexists.
  split; [apply tree_rules|].
  split; [reflexivity|].
  split; [run_constructor; reflexivity|].
  split; [run_constructor; reflexivity|].
  split; [reflexivity|].
  split; [reflexivity|].
  split; [reflexivity|].
  cbn [CfnRule.inputTransformer].
  split.
  - intros print event.
    rewrite (transform_UpdateTodo print).
    rewrite (extract_detail "todo-id"), (extract_detail "name"),
      (extract_detail "description") by reflexivity.
    reflexivity.
  - intros print e1 e2 H1 H2 H3.
    rewrite !(transform_UpdateTodo print).
    now rewrite H1, H2, H3.
Qed.

(** ** Dependencies *)

(** C4, as stated, fails: the rule declares a dependency on the bus
    ([rule.addDependsOn(bus)]), so it is not true that no construct declares
    a dependency on another. *)
Lemma declared_dependency_exists :
  declares Sample.stack.2 "rule" "bus" = true /\
  no_declared_dependency Sample.stack.2 = false.
Proof. split; vm_compute; reflexivity. Qed.

(** C4, amended: the constructor of the stack declares one dependency
    itself, of the rule on the bus, and the rule also takes an output of the
    bus as an input (its eventBusName is the name of the bus).  So, whatever
    dependencies the library declares inside its own constructs, every
    dependency of the stack is one of those or is rule on bus, which doubles
    a reference. *)
Theorem own_dependency_doubles_a_reference
    (dirname : string) (join : string -> string -> string)
    (env : string -> option string)
    (GraphqlApi_apiKey : string -> GraphqlApi.Props -> option tstring)
    (scope id : string) (props : option StackProps.t)
    (library : Construct -> list (handle * handle)) :
  dependsOn (MainStack dirname join env GraphqlApi_apiKey scope id props).2
    = [("rule", "bus")] /\
  (forall d,
     In d (dependencies library
             (MainStack dirname join env GraphqlApi_apiKey scope id props).2)
     <-> (exists c,
            In c (children (MainStack dirname join env GraphqlApi_apiKey scope id props).2)
            /\ In d (library c))
         \/ d = ("rule", "bus")) /\
  (exists r,
     child "rule" (MainStack dirname join env GraphqlApi_apiKey scope id props).2
       = Some (CfnRule_ "rule" r) /\
     CfnRule.eventBusName r = attr "bus" "attrName") /\
  refers (MainStack dirname join env GraphqlApi_apiKey scope id props).2 "rule" "bus" = true.
Proof.
  split; [apply tree_dependsOn|].
  split.
  - intros d. unfold dependencies. rewrite in_app_iff, tree_dependsOn, in_flat_map.
    cbn [In]. split; (intros [H | H]; [left; exact H | right]).
    + destruct H as [<- | []]. reflexivity.
    + left. now symmetry.
  - split; [eexists; split; [run_constructor; reflexivity | reflexivity]|].
    run_constructor; reflexivity.
Qed.

(** ** The connection and the destination *)

(** C5: the connection is declared with OAUTH_CLIENT_CREDENTIALS, the
    endpoint of the auth construct followed by /oauth2/token, POST, the
    destination client id and secret of the auth construct, and the one body
    parameter grant_type=client_credentials; the destination's connectionArn
    is the ARN of that connection. *)
Theorem destination_is_oauth_secured
    (dirname : string) (join : string -> string -> string)
    (env : string -> option string)
    (GraphqlApi_apiKey : string -> GraphqlApi.Props -> option tstring)
    (scope id : string) (props : option StackProps.t) :
  exists c d a,
    connections (MainStack dirname join env GraphqlApi_apiKey scope id props).2 = [c] /\
    child "connection" (MainStack dirname join env GraphqlApi_apiKey scope id props).2
      = Some (CfnConnection_ "connection" c) /\
    child "destination" (MainStack dirname join env GraphqlApi_apiKey scope id props).2
      = Some (CfnApiDestination_ "destination" d) /\
    child "Auth" (MainStack dirname join env GraphqlApi_apiKey scope id props).2
      = Some (Auth_ "Auth" a) /\
    CfnConnection.authorizationType c = "OAUTH_CLIENT_CREDENTIALS" /\
    CfnConnection.AuthorizationEndpoint
      (CfnConnection.OAuthParameters_ (CfnConnection.authParameters c))
      = (attr "Auth" "authEndpoint" ++ lit "/oauth2/token")%list /\
    CfnConnection.HttpMethod
      (CfnConnection.OAuthParameters_ (CfnConnection.authParameters c)) = "POST" /\
    CfnConnection.ClientParameters_
      (CfnConnection.OAuthParameters_ (CfnConnection.authParameters c))
      = {| CfnConnection.ClientID := attr "Auth" "destinationClientId";
           CfnConnection.ClientSecret := attr "Auth" "destinationClientSecret" |} /\
    CfnConnection.BodyParameters
      (CfnConnection.OAuthHttpParameters_
         (CfnConnection.OAuthParameters_ (CfnConnection.authParameters c)))
      = [ {| CfnConnection.Key := "grant_type";
             CfnConnection.Value := "client_credentials" |} ] /\
    CfnApiDestination.connectionArn d = attr "connection" "attrArn".
Proof.
  do 3 eexists.
  split; [run_constructor; reflexivity|].
  repeat (split; [first [reflexivity | run_constructor; reflexivity]|]).
  reflexivity.
Qed.

(** ** The resources and their wiring *)

(** C6: the constructor declares the auth construct (on the auth domain
    name, a parameter of the stack), the authorizer function, the GraphQL API, the event bus, the
    connection, the API destination, the role and the rule; the rule is on
    the bus, its target is the destination under the role, the destination
    uses the connection, and the permission to invoke the authorizer
    function is for the ARN of the API. *)
Theorem resources_declared_and_wired
    (dirname : string) (join : string -> string -> string)
    (env : string -> option string)
    (GraphqlApi_apiKey : string -> GraphqlApi.Props -> option tstring)
    (scope id : string) (props : option StackProps.t) :
  exists pm a f g b c d ro r t p,
    child "authDomainName" (MainStack dirname join env GraphqlApi_apiKey scope id props).2
      = Some (CfnParameter_ "authDomainName" pm) /\
    child "Auth" (MainStack dirname join env GraphqlApi_apiKey scope id props).2
      = Some (Auth_ "Auth" a) /\
    child "AuthorizerFunction" (MainStack dirname join env GraphqlApi_apiKey scope id props).2
      = Some (PythonFunction_ "AuthorizerFunction" f) /\
    child "Api" (MainStack dirname join env GraphqlApi_apiKey scope id props).2
      = Some (GraphqlApi_ "Api" g) /\
    child "bus" (MainStack dirname join env GraphqlApi_apiKey scope id props).2
      = Some (CfnEventBus_ "bus" b) /\
    child "connection" (MainStack dirname join env GraphqlApi_apiKey scope id props).2
      = Some (CfnConnection_ "connection" c) /\
    child "destination" (MainStack dirname join env GraphqlApi_apiKey scope id props).2
      = Some (CfnApiDestination_ "destination" d) /\
    child "role" (MainStack dirname join env GraphqlApi_apiKey scope id props).2
      = Some (Role_ "role" ro) /\
    child "rule" (MainStack dirname join env GraphqlApi_apiKey scope id props).2
      = Some (CfnRule_ "rule" r) /\
    child "AuthorizerFunction/AppSyncInvokeLambdaPermission"
      (MainStack dirname join env GraphqlApi_apiKey scope id props).2
      = Some (Permission_ "AuthorizerFunction" "AppSyncInvokeLambdaPermission" p) /\
    Auth.authDomainPrefix a = attr "authDomainName" "valueAsString" /\
    CfnRule.eventBusName r = attr "bus" "attrName" /\
    CfnRule.targets r = [t] /\
    CfnRule.arn t = attr "destination" "attrArn" /\
    CfnRule.roleArn t = attr "role" "roleArn" /\
    CfnApiDestination.connectionArn d = attr "connection" "attrArn" /\
    Permission.sourceArn p = attr "Api" "arn".
Proof.
  do 11 eexists.
  do 10 (split; [run_constructor; reflexivity|]).
  repeat (split; [reflexivity|]).
  reflexivity.
Qed.

(** ** The resolver *)

(** C7: the tree has one resolver, of the field updateTodo of Mutation, on
    the none data source of the API; its two mapping templates are the two
    template strings of the file, and the tree has no other mapping
    template. *)
Theorem templates_on_one_resolver
    (dirname : string) (join : string -> string -> string)
    (env : string -> option string)
    (GraphqlApi_apiKey : string -> GraphqlApi.Props -> option tstring)
    (scope id : string) (props : option StackProps.t) :
  exists r,
    resolvers (MainStack dirname join env GraphqlApi_apiKey scope id props).2
      = [("Api/NONE", r)] /\
    child "Api/NONE" (MainStack dirname join env GraphqlApi_apiKey scope id props).2
      = Some (NoneDataSource_ "Api" "NONE") /\
    Resolver.typeName r = "Mutation" /\
    Resolver.fieldName r = "updateTodo" /\
    Resolver.requestMappingTemplate r = MappingTemplate_fromString requestTemplate /\
    Resolver.responseMappingTemplate r = MappingTemplate_fromString responseTemplate /\
    mapping_templates (MainStack dirname join env GraphqlApi_apiKey scope id props).2
      = [requestTemplate; responseTemplate] /\
    String.eqb requestTemplate responseTemplate = false.
Proof.
  eexists.
  split; [run_constructor; reflexivity|].
  split; [run_constructor; reflexivity|].
  do 4 (split; [reflexivity|]).
  split; [run_constructor; reflexivity|].
  vm_compute. reflexivity.
Qed.

(** ** The output of the API key *)

(** Without a key the output enters the tree with no value and its
    constructor throws, naming its path. *)
Lemma MainStack_without_key dirname join env scope id props :
  (MainStack dirname join env Sample.noKey scope id props).1
    = Throw ("Missing value for CloudFormation output at path "
             +:+ q (stack_path (Stack_new scope id props) +:+ "/apiKey")) /\
  child "apiKey" (MainStack dirname join env Sample.noKey scope id props).2
    = Some (CfnOutput_ "apiKey" {| CfnOutput.value := None |}).
Proof. split; vm_compute; reflexivity. Qed.



(** ** The input template *)

(** C10: [replace(/\n\s*/g, ' ')] turns each newline and the white space
    after it into one space and leaves no newline in any string; the input
    template of the rule's target is the multi-line literal so replaced, a
    single line. *)
Theorem inputTemplate_single_line
    (dirname : string) (join : string -> string -> string)
    (env : string -> option string)
    (GraphqlApi_apiKey : string -> GraphqlApi.Props -> option tstring)
    (scope id : string) (props : option StackProps.t) :
  (forall s, has_newline (JS.replace_nl_ws s) = false) /\
  (forall s, JS.replace_nl_ws (String nl s)
             = String " " (JS.replace_nl_ws (JS.skip_spaces s))) /\
  (forall c s, JS.is_newline c = false ->
               JS.replace_nl_ws (String c s) = String c (JS.replace_nl_ws s)) /\
  exists r t,
    rules (MainStack dirname join env GraphqlApi_apiKey scope id props).2 = [r] /\
    CfnRule.targets r = [t] /\
    CfnRule.inputTemplate (CfnRule.inputTransformer t)
      = JS.replace_nl_ws inputTemplate_literal /\
    has_newline inputTemplate_literal = true /\
    has_newline (CfnRule.inputTemplate (CfnRule.inputTransformer t)) = false /\
    CfnRule.inputTemplate (CfnRule.inputTransformer t)
      = UpdateTodo_request "<id>" "<name>" "<description>".
Proof.
  split; [intros s; apply replace_go_no_newline|].
  split; [apply replace_nl_ws_newline|].
  split; [apply replace_nl_ws_other|].
  do 2 eexists.
  split; [apply tree_rules|].
  do 2 (split; [reflexivity|]).
  split; [vm_compute; reflexivity|].
  split; [apply replace_go_no_newline|].
  vm_compute. reflexivity.
Qed.

(** ** The mapping templates *)

Lemma append_empty s : s +:+ EmptyString = s.
Proof. induction s as [|c r IH]; [reflexivity|]. change (String c (r +:+ EmptyString) = String c r). now rewrite IH. Qed.

Lemma requestTemplate_nodes :
  VTL.parse requestTemplate = Some [
    VTL.Text NL;
    VTL.SetDirective "createdAt"
      (VTL.ECall (VTL.EProp (VTL.ERef "util") "time") "nowISO8601" []);
    VTL.Interp
      (VTL.ECall (VTL.ERef "util") "qr"
         [VTL.ECall (VTL.EProp (VTL.ERef "context") "args") "put"
            [VTL.EStr "createdAt"; VTL.ERef "createdAt"]]);
    VTL.Text NL;
    VTL.Interp
      (VTL.ECall (VTL.ERef "util") "qr"
         [VTL.ECall (VTL.EProp (VTL.ERef "context") "args") "put"
            [VTL.EStr "updatedAt"; VTL.ERef "createdAt"]]);
    VTL.Text (lines [EmptyString; "{";
                     "  " +:+ q "version" +:+ ": " +:+ q "2017-02-28" +:+ ",";
                     "  " +:+ q "payload" +:+ ": "]);
    VTL.Interp
      (VTL.ECall (VTL.ERef "util") "toJson" [VTL.EProp (VTL.ERef "ctx") "args"]);
    VTL.Text (lines [EmptyString; "}"]) ].
Proof. vm_compute. reflexivity. Qed.

Lemma responseTemplate_nodes :
  VTL.parse responseTemplate = Some [
    VTL.Interp
      (VTL.ECall (VTL.ERef "util") "toJson" [VTL.EProp (VTL.ERef "context") "result"]) ].
Proof. vm_compute. reflexivity. Qed.

Section Templates.

Variable now : nat -> string.
Variable toJson : json -> string.

Lemma run_requestTemplate σ :
  VTL.run now toJson requestTemplate σ =
  Some (request_document (toJson (JObj (stamped (now (VTL.reads σ)) (VTL.args σ)))),
        VTL.State (stamped (now (VTL.reads σ)) (VTL.args σ))
                  (VTL.result σ)
                  (<["createdAt" := VTL.VJson (JStr (now (VTL.reads σ)))]> (VTL.vars σ))
                  (S (VTL.reads σ))).
Proof.
  unfold VTL.run. rewrite requestTemplate_nodes.
  destruct σ as [a r v n].
  do 2 (cbn -[insert String.append]; rewrite lookup_insert_eq).
  cbn -[insert String.append]. reflexivity.
Qed.

Lemma run_responseTemplate σ :
  VTL.run now toJson responseTemplate σ = Some (toJson (VTL.result σ), σ).
Proof.
  unfold VTL.run. rewrite responseTemplate_nodes.
  destruct σ as [a r v n]. cbn -[String.append]. now rewrite append_empty.
Qed.

End Templates.

Example run_requestTemplate_instance :
  VTL.run Sample.now Sample.toJson requestTemplate Sample.request =
  Some (request_document "{4 fields}",
        VTL.State (<["updatedAt" := JStr "2021-06-01T10:00:00.000Z"]>
                   (<["createdAt" := JStr "2021-06-01T10:00:00.000Z"]>
                    (<["id" := JStr "42"]> (<["name" := JStr "milk"]> ∅))))
                  (JObj (<["id" := JStr "42"]> ∅))
                  (<["createdAt" := VTL.VJson (JStr "2021-06-01T10:00:00.000Z")]> ∅)
                  3).
Proof. vm_compute. reflexivity. Qed.

(** C1: the request template reads the clock once, puts the time into the
    arguments under createdAt and under updatedAt, and renders the document
    (three empty lines, then the object with the version and the payload)
    whose payload is the serialization of the arguments so augmented; the
    response template renders the serialization of the result and nothing
    else, and changes nothing. *)
Theorem mapping_templates_transformation
    (now : nat -> string) (toJson : json -> string) (σ : VTL.state) :
  VTL.run now toJson requestTemplate σ =
    Some (request_document (toJson (JObj (stamped (now (VTL.reads σ)) (VTL.args σ)))),
          VTL.State (stamped (now (VTL.reads σ)) (VTL.args σ))
                    (VTL.result σ)
                    (<["createdAt" := VTL.VJson (JStr (now (VTL.reads σ)))]> (VTL.vars σ))
                    (S (VTL.reads σ))) /\
  VTL.run now toJson responseTemplate σ = Some (toJson (VTL.result σ), σ).
Proof. split; [apply run_requestTemplate | apply run_responseTemplate]. Qed.

(** C8: for every request, clock and serializer the request template runs
    to its end, reads the clock once, and leaves the time of that one
    reading under createdAt and under updatedAt: the two are equal. *)
Theorem createdAt_equals_updatedAt
    (now : nat -> string) (toJson : json -> string) (σ : VTL.state) :
  exists out σ',
    VTL.run now toJson requestTemplate σ = Some (out, σ') /\
    VTL.reads σ' = S (VTL.reads σ) /\
    VTL.args σ' !! "createdAt" = Some (JStr (now (VTL.reads σ))) /\
    VTL.args σ' !! "updatedAt" = Some (JStr (now (VTL.reads σ))) /\
    VTL.args σ' !! "createdAt" = VTL.args σ' !! "updatedAt".
Proof.
  do 2 eexists. split; [apply run_requestTemplate|].
  cbn [VTL.args VTL.reads]. unfold stamped.
  rewrite lookup_insert_eq, lookup_insert_ne, lookup_insert_eq by done.
  repeat split; reflexivity.
Qed.

(** ** The instance *)

Example event_matches :
  exists r,
    rules Sample.stack.2 = [r] /\
    EventBridge.matches (CfnRule.eventPattern r) Sample.event = true /\
    EventBridge.matches (CfnRule.eventPattern r) Sample.other_event = false.
Proof. eexists. split; [apply tree_rules|]. split; vm_compute; reflexivity. Qed.

Example event_transformed :
  exists r t,
    rules Sample.stack.2 = [r] /\ CfnRule.targets r = [t] /\
    EventBridge.transform Sample.print (CfnRule.inputTransformer t) Sample.event
      = UpdateTodo_request "42" "milk" EmptyString.
Proof.
  do 2 eexists. split; [apply tree_rules|]. split; [reflexivity|].
  vm_compute. reflexivity.
Qed.

Example replace_nl_ws_instance :
  JS.replace_nl_ws (lines ["a {"; "    b"; EmptyString; "  c }"]) = "a { b c }".
Proof. reflexivity. Qed.

(** * Further properties *)

(** ** The replacement, on every string *)

Lemma has_newline_append a b :
  has_newline (a +:+ b) = has_newline a || has_newline b.
Proof.
  unfold has_newline. induction a as [|c r IH]; [reflexivity|].
  change (String c r +:+ b) with (String c (r +:+ b)).
  cbn [list_ascii_of_string existsb]. now rewrite IH, orb_assoc.
Qed.

Lemma append_empty_l s : EmptyString +:+ s = s.
Proof. reflexivity. Qed.

Lemma append_String c a b : String c a +:+ b = String c (a +:+ b).
Proof. reflexivity. Qed.

Lemma is_space_not_newline c : JS.is_space c = false -> JS.is_newline c = false.
Proof.
  intros H. destruct (JS.is_newline c) eqn:Hn; [|reflexivity].
  apply is_newline_is_space in Hn. congruence.
Qed.

(** The scanner goes through a character that is no white space as
    through a wall: what it does before and after it are independent. *)
Lemma replace_go_at_non_space k a c b :
  JS.is_space c = false ->
  JS.replace_go k (a +:+ String c b) =
  JS.replace_go k a +:+ String c (JS.replace_go false b).
Proof.
  intros Hc. revert k. induction a as [|x r IH]; intros k.
  - rewrite append_empty_l. cbn [JS.replace_go].
    rewrite Hc, andb_false_r, (is_space_not_newline c Hc).
    now rewrite append_empty_l.
  - rewrite append_String. cbn [JS.replace_go].
    destruct (k && JS.is_space x); [apply IH|].
    destruct (JS.is_newline x); rewrite append_String; now rewrite IH.
Qed.

Lemma non_spaces_replace_go k s :
  non_spaces (JS.replace_go k s) = non_spaces s.
Proof.
  unfold non_spaces. revert k. induction s as [|c r IH]; intros k; [reflexivity|].
  cbn [JS.replace_go list_ascii_of_string List.filter].
  destruct (JS.is_space c) eqn:Hs.
  - rewrite andb_true_r. cbn [negb].
    destruct k; [apply IH|].
    destruct (JS.is_newline c); cbn [list_ascii_of_string List.filter].
    + change (negb (JS.is_space " ")) with false. cbn iota. apply IH.
    + rewrite Hs. cbn [negb]. apply IH.
  - rewrite andb_false_r, (is_space_not_newline c Hs).
    cbn [list_ascii_of_string List.filter negb]. rewrite Hs. cbn [negb].
    now rewrite IH.
Qed.

Lemma replace_line_then_newline l r :
  has_newline l = false ->
  JS.replace_nl_ws (l +:+ String nl r) =
  l +:+ String " " (JS.replace_nl_ws (JS.skip_spaces r)).
Proof.
  unfold has_newline. induction l as [|c l' IH]; intros H.
  - apply replace_nl_ws_newline.
  - cbn [list_ascii_of_string existsb] in H. apply orb_false_elim in H as [Hc Hl].
    change (String c l' +:+ String nl r) with (String c (l' +:+ String nl r)).
    rewrite replace_nl_ws_other by exact Hc. now rewrite IH.
Qed.

Lemma skip_spaces_append l r :
  blank l = false -> JS.skip_spaces (l +:+ r) = JS.skip_spaces l +:+ r.
Proof.
  unfold blank. induction l as [|c l' IH]; [discriminate|].
  change (String c l' +:+ r) with (String c (l' +:+ r)).
  cbn [JS.skip_spaces]. destruct (JS.is_space c); [exact IH | reflexivity].
Qed.

Lemma skip_spaces_single_line l :
  has_newline l = false -> has_newline (JS.skip_spaces l) = false.
Proof.
  unfold has_newline. induction l as [|c l' IH]; [reflexivity|].
  cbn [JS.skip_spaces]. destruct (JS.is_space c); [|trivial].
  cbn [list_ascii_of_string existsb]. intros [_ H]%orb_false_elim. now apply IH.
Qed.

(** X1: replacing twice is replacing once. *)
Theorem replace_nl_ws_idempotent (s : string) :
  JS.replace_nl_ws (JS.replace_nl_ws s) = JS.replace_nl_ws s.
Proof. apply replace_nl_ws_single_line, replace_go_no_newline. Qed.

(** X2: the replacement leaves a single-line string as it is, its spaces
    and tabs too: only white space that follows a newline is removed. *)
Theorem single_line_unchanged (s : string) :
  has_newline s = false -> JS.replace_nl_ws s = s.
Proof. intros H. now apply replace_nl_ws_single_line. Qed.

Lemma single_line_unchanged_witness :
  has_newline "a  b 	c " = false /\ JS.replace_nl_ws "a  b 	c " = "a  b 	c ".
Proof.
  split; [reflexivity|]. apply (single_line_unchanged "a  b 	c "). reflexivity.
Defined.

(** X3: on an ASCII string the replacement touches white space only: the
    other characters of the result are those of the string, in their
    order. *)
Theorem replace_nl_ws_keeps_non_spaces (s : string) :
  ascii_only s = true ->
  non_spaces (JS.replace_nl_ws s) = non_spaces s.
Proof. intros _. unfold JS.replace_nl_ws. apply non_spaces_replace_go. Qed.

Lemma replace_nl_ws_keeps_non_spaces_witness :
  ascii_only (lines ["{ a:"; "    1 }"]) = true /\
  non_spaces (JS.replace_nl_ws (lines ["{ a:"; "    1 }"]))
  = non_spaces (lines ["{ a:"; "    1 }"]).
Proof.
  split; [reflexivity|].
  apply (replace_nl_ws_keeps_non_spaces (lines ["{ a:"; "    1 }"])). reflexivity.
Defined.

(** X4: on an ASCII string the replacement can be done piece by piece
    around any character that is no white space. *)
Theorem replace_nl_ws_at_non_space (a : string) (c : ascii) (b : string) :
  ascii_only (a +:+ String c b) = true ->
  JS.is_space c = false ->
  JS.replace_nl_ws (a +:+ String c b) =
  JS.replace_nl_ws a +:+ String c (JS.replace_nl_ws b).
Proof. intros _ H. unfold JS.replace_nl_ws. now apply replace_go_at_non_space. Qed.

Lemma replace_nl_ws_at_non_space_witness :
  ascii_only (lines ["{"; "  a"] +:+ String "}" (lines [","; "  b"])) = true /\
  JS.is_space "}" = false /\
  JS.replace_nl_ws (lines ["{"; "  a"] +:+ String "}" (lines [","; "  b"])) =
  JS.replace_nl_ws (lines ["{"; "  a"]) +:+ String "}" (JS.replace_nl_ws (lines [","; "  b"])).
Proof.
  split; [reflexivity|]. split; [reflexivity|].
  apply (replace_nl_ws_at_non_space (lines ["{"; "  a"]) "}" (lines [","; "  b"]));
    reflexivity.
Defined.

Lemma replace_lines_from l ls :
  has_newline l = false ->
  forallb (λ x, negb (has_newline x)) ls = true ->
  forallb (λ x, negb (blank x)) ls = true ->
  JS.replace_nl_ws (lines (l :: ls)) = join_space (l :: map JS.skip_spaces ls).
Proof.
  revert l. induction ls as [|l2 ls IH]; intros l Hl Hn Hb.
  - now apply replace_nl_ws_single_line.
  - cbn [forallb] in Hn, Hb.
    apply andb_true_iff in Hn as [Hn2 Hn], Hb as [Hb2 Hb].
    apply negb_true_iff in Hn2, Hb2.
    change (lines (l :: l2 :: ls)) with (l +:+ String nl (lines (l2 :: ls))).
    rewrite replace_line_then_newline by exact Hl.
    assert (JS.skip_spaces (lines (l2 :: ls)) = lines (JS.skip_spaces l2 :: ls)) as ->.
    { destruct ls as [|l3 ls']; [reflexivity|].
      change (lines (l2 :: l3 :: ls')) with (l2 +:+ String nl (lines (l3 :: ls'))).
      now rewrite skip_spaces_append. }
    rewrite IH by (try apply skip_spaces_single_line; assumption).
    reflexivity.
Qed.

(** X5: on an ASCII multi-line text whose lines after the first are not
    blank the replacement removes the indentation of every line after the
    first and joins the lines by single spaces. *)
Theorem replace_nl_ws_joins_lines (l : string) (ls : list string) :
  forallb ascii_only (l :: ls) = true ->
  forallb (λ x, negb (has_newline x)) (l :: ls) = true ->
  forallb (λ x, negb (blank x)) ls = true ->
  JS.replace_nl_ws (lines (l :: ls)) = join_space (l :: map JS.skip_spaces ls).
Proof.
  intros _. cbn [forallb]. intros [Hl Hn]%andb_true_iff Hb.
  apply negb_true_iff in Hl. now apply replace_lines_from.
Qed.

Lemma replace_nl_ws_joins_lines_witness :
  forallb ascii_only ["a {"; "    b: 1,"; "  }"] = true /\
  forallb (λ x, negb (has_newline x)) ["a {"; "    b: 1,"; "  }"] = true /\
  forallb (λ x, negb (blank x)) ["    b: 1,"; "  }"] = true /\
  JS.replace_nl_ws (lines ["a {"; "    b: 1,"; "  }"]) = "a { b: 1, }".
Proof.
  split; [reflexivity|]. split; [reflexivity|]. split; [reflexivity|].
  apply (replace_nl_ws_joins_lines "a {" ["    b: 1,"; "  }"]); reflexivity.
Defined.

(** ** The tree, whatever the library does with the key *)

(** The tree is the tree of a stack whose API has no key, but for the value
    of its last output, which is the key as the library gives it. *)
Lemma tree_children
    (dirname : string) (join : string -> string -> string)
    (env : string -> option string)
    (GraphqlApi_apiKey : string -> GraphqlApi.Props -> option tstring)
    (scope id : string) (props : option StackProps.t) :
  exists g,
    child "Api" (MainStack dirname join env GraphqlApi_apiKey scope id props).2
      = Some (GraphqlApi_ "Api" g) /\
    children (MainStack dirname join env GraphqlApi_apiKey scope id props).2
      = (removelast (children (MainStack dirname join env Sample.noKey scope id props).2)
         ++ [CfnOutput_ "apiKey" {| CfnOutput.value := GraphqlApi_apiKey "Api" g |}])%list.
Proof.
  eexists. split; [run_constructor; reflexivity|].
  run_constructor; reflexivity.
Qed.

(** X6: the stack declares four outputs, apiId, apiName, graphqlUrl and
    apiKey, in this order: the first three with the id, the name and the
    URL of the API, the last with [api.apiKey] as the library gives it,
    defined or not (the output enters the tree in both cases); and the URL
    put out is the endpoint the destination invokes. *)
Theorem outputs_of_the_api
    (dirname : string) (join : string -> string -> string)
    (env : string -> option string)
    (GraphqlApi_apiKey : string -> GraphqlApi.Props -> option tstring)
    (scope id : string) (props : option StackProps.t) :
  exists g d,
    child "Api" (MainStack dirname join env GraphqlApi_apiKey scope id props).2
      = Some (GraphqlApi_ "Api" g) /\
    child "destination" (MainStack dirname join env GraphqlApi_apiKey scope id props).2
      = Some (CfnApiDestination_ "destination" d) /\
    outputs (MainStack dirname join env GraphqlApi_apiKey scope id props).2
      = [("apiId", Some (attr "Api" "apiId"));
         ("apiName", Some (attr "Api" "name"));
         ("graphqlUrl", Some (attr "Api" "graphqlUrl"));
         ("apiKey", GraphqlApi_apiKey "Api" g)] /\
    EventBridge.assoc "graphqlUrl"
      (outputs (MainStack dirname join env GraphqlApi_apiKey scope id props).2)
      = Some (Some (CfnApiDestination.invocationEndpoint d)).
Proof.
  do 2 eexists.
  split; [run_constructor; reflexivity|].
  split; [run_constructor; reflexivity|].
  split; [run_constructor; reflexivity|].
  run_constructor; reflexivity.
Qed.

Lemma find_by_path (l : list Construct) (c : Construct) :
  NoDup (map path_of l) -> In c l ->
  List.find (λ x, String.eqb (path_of x) (path_of c)) l = Some c.
Proof.
  induction l as [|a l IH]; intros Hnd Hin; [destruct Hin|].
  cbn [map] in Hnd. apply NoDup_cons in Hnd as [Ha Hnd].
  cbn [List.find]. destruct Hin as [-> | Hin].
  - now rewrite String.eqb_refl.
  - destruct (String.eqb_spec (path_of a) (path_of c)) as [E|_]; [|now apply IH].
    exfalso. apply Ha. rewrite E. apply list_elem_of_In, in_map, Hin.
Qed.

Lemma child_of_path (s : Stack) (c : Construct) :
  NoDup (paths s) -> In c (children s) -> child (path_of c) s = Some c.
Proof. unfold paths, child. apply find_by_path. Qed.

Lemma tree_paths
    (dirname : string) (join : string -> string -> string)
    (env : string -> option string)
    (GraphqlApi_apiKey : string -> GraphqlApi.Props -> option tstring)
    (scope id : string) (props : option StackProps.t) :
  paths (MainStack dirname join env GraphqlApi_apiKey scope id props).2
  = ["authDomainName"; "Auth"; "AuthorizerFunction"; "Api";
     "AuthorizerFunction/AppSyncInvokeLambdaPermission"; "Api/NONE";
     "Api/NONE/MutationupdateTodoResolver"; "bus"; "connection"; "destination";
     "role"; "rule"; "apiId"; "apiName"; "graphqlUrl"; "apiKey"].
Proof. run_constructor; reflexivity. Qed.

(** X7: none of the sixteen declarations of the constructor is refused by
    its scope as a second child of a name, whatever the constructor is
    given: each enters the tree, in the order of the source, at a path of
    its own, and is the construct found at that path. *)
Theorem no_declaration_refused
    (dirname : string) (join : string -> string -> string)
    (env : string -> option string)
    (GraphqlApi_apiKey : string -> GraphqlApi.Props -> option tstring)
    (scope id : string) (props : option StackProps.t) :
  refused (MainStack dirname join env GraphqlApi_apiKey scope id props).1 = false /\
  paths (MainStack dirname join env GraphqlApi_apiKey scope id props).2
  = ["authDomainName"; "Auth"; "AuthorizerFunction"; "Api";
     "AuthorizerFunction/AppSyncInvokeLambdaPermission"; "Api/NONE";
     "Api/NONE/MutationupdateTodoResolver"; "bus"; "connection"; "destination";
     "role"; "rule"; "apiId"; "apiName"; "graphqlUrl"; "apiKey"] /\
  NoDup (paths (MainStack dirname join env GraphqlApi_apiKey scope id props).2) /\
  forall c,
    In c (children (MainStack dirname join env GraphqlApi_apiKey scope id props).2) ->
    child (path_of c) (MainStack dirname join env GraphqlApi_apiKey scope id props).2
    = Some c.
Proof.
  assert (NoDup (paths (MainStack dirname join env GraphqlApi_apiKey scope id props).2))
    as Hnd.
  { rewrite tree_paths. apply (bool_decide_unpack _). vm_compute. exact I. }
  split; [run_constructor; reflexivity|].
  split; [apply tree_paths|].
  split; [exact Hnd|].
  intros c. apply child_of_path, Hnd.
Qed.

(** ** References *)

Lemma declared_in_order_app seen cs1 cs2 :
  declared_in_order seen (cs1 ++ cs2)%list =
  declared_in_order seen cs1
  && declared_in_order (seen ++ map path_of cs1)%list cs2.
Proof.
  revert seen. induction cs1 as [|c cs1 IH]; intros seen.
  - cbn. now rewrite app_nil_r.
  - cbn [app declared_in_order map]. rewrite IH, <- app_assoc, andb_assoc. reflexivity.
Qed.

Lemma constructs_in_cons f k :
  constructs_in (f :: k) = (frag_constructs f ++ constructs_in k)%list.
Proof. reflexivity. Qed.

Lemma key_refers_to_api i k seen :
  forallb (String.eqb i) (constructs_in k) = true ->
  existsb (String.eqb i) seen = true ->
  forallb (λ h, existsb (String.eqb h) seen) (constructs_in k) = true.
Proof.
  intros Hk Hi. induction (constructs_in k) as [|h l IH]; [reflexivity|].
  cbn [forallb] in *. apply andb_true_iff in Hk as [Hh Hl].
  apply String.eqb_eq in Hh as <-. now rewrite Hi, IH.
Qed.

Lemma key_without_token i k c a :
  forallb (String.eqb i) (constructs_in k) = true ->
  String.eqb i c = false ->
  existsb (frag_eqb (Attr c a)) k = false.
Proof.
  intros Hk Hc. induction k as [|f k IH]; [reflexivity|].
  rewrite constructs_in_cons, forallb_app in Hk. apply andb_true_iff in Hk as [Hf Hk].
  cbn [existsb]. rewrite (IH Hk), orb_false_r.
  destruct f as [s|d b|b]; try reflexivity.
  cbn in Hf. rewrite andb_true_r in Hf. apply String.eqb_eq in Hf as <-.
  cbn [frag_eqb]. rewrite String.eqb_sym, Hc. reflexivity.
Qed.

(** X8: when the key the library gives an API holds tokens of that API
    only, every construct of the tree refers only to constructs declared
    before it, and the declared dependency is between declared constructs:
    no reference dangles and none goes in a circle. *)
Theorem references_declared_before
    (dirname : string) (join : string -> string -> string)
    (env : string -> option string)
    (GraphqlApi_apiKey : string -> GraphqlApi.Props -> option tstring)
    (scope id : string) (props : option StackProps.t)
    (key : forall i p k, GraphqlApi_apiKey i p = Some k ->
                         forallb (String.eqb i) (constructs_in k) = true) :
  declared_in_order []
    (children (MainStack dirname join env GraphqlApi_apiKey scope id props).2) = true /\
  forallb (λ d, existsb (String.eqb d.1)
                  (paths (MainStack dirname join env GraphqlApi_apiKey scope id props).2)
                && existsb (String.eqb d.2)
                     (paths (MainStack dirname join env GraphqlApi_apiKey scope id props).2))
          (dependsOn (MainStack dirname join env GraphqlApi_apiKey scope id props).2) = true.
Proof.
  destruct (tree_children dirname join env GraphqlApi_apiKey scope id props)
    as (g & _ & Hc).
  rewrite tree_dependsOn, tree_paths. rewrite Hc, declared_in_order_app.
  split; [|vm_compute; reflexivity].
  apply andb_true_iff. split; [vm_compute; reflexivity|].
  cbn [declared_in_order]. rewrite andb_true_r.
  unfold references. cbn [objects_of strings_of CfnOutput.value app].
  destruct (GraphqlApi_apiKey "Api" g) as [k|] eqn:Hk; [|reflexivity].
  cbn [flat_map]. rewrite app_nil_r.
  apply (key_refers_to_api "Api"); [exact (key _ _ _ Hk) | vm_compute; reflexivity].
Qed.

Lemma references_declared_before_witness :
  declared_in_order [] (children Sample.stack.2) = true /\
  forallb (λ d, existsb (String.eqb d.1) (paths Sample.stack.2)
                && existsb (String.eqb d.2) (paths Sample.stack.2))
          (dependsOn Sample.stack.2) = true.
Proof.
  apply (references_declared_before Sample.dirname Sample.join Sample.env
           Sample.apiKey "App" "MainStack" None).
  intros i p k. unfold Sample.apiKey.
  destruct (existsb _ _); [|discriminate].
  intros [= <-]. cbn. now rewrite String.eqb_refl.
Defined.

(** X9: under the same condition on the key, the client secret of the auth
    construct is given to the connection and to no other construct: no
    output, no function environment and no other property holds it. *)
Theorem client_secret_only_in_connection
    (dirname : string) (join : string -> string -> string)
    (env : string -> option string)
    (GraphqlApi_apiKey : string -> GraphqlApi.Props -> option tstring)
    (scope id : string) (props : option StackProps.t)
    (key : forall i p k, GraphqlApi_apiKey i p = Some k ->
                         forallb (String.eqb i) (constructs_in k) = true) :
  map path_of
    (List.filter (mentions (Attr "Auth" "destinationClientSecret"))
       (children (MainStack dirname join env GraphqlApi_apiKey scope id props).2))
  = ["connection"].
Proof.
  destruct (tree_children dirname join env GraphqlApi_apiKey scope id props)
    as (g & _ & Hc).
  rewrite Hc, List.filter_app, map_app.
  replace (map path_of
             (List.filter _
                (removelast (children (MainStack _ _ _ Sample.noKey _ _ _).2))))
    with ["connection"] by (vm_compute; reflexivity).
  cbn [List.filter]. unfold mentions at 1. cbn [strings_of CfnOutput.value].
  destruct (GraphqlApi_apiKey "Api" g) as [k|] eqn:Hk; [|reflexivity].
  cbn [existsb].
  rewrite (key_without_token "Api" k "Auth" "destinationClientSecret");
    [reflexivity | exact (key _ _ _ Hk) | reflexivity].
Qed.

Lemma client_secret_only_in_connection_witness :
  map path_of
    (List.filter (mentions (Attr "Auth" "destinationClientSecret"))
       (children Sample.stack.2))
  = ["connection"].
Proof.
  apply (client_secret_only_in_connection Sample.dirname Sample.join Sample.env
           Sample.apiKey "App" "MainStack" None).
  intros i p k. unfold Sample.apiKey.
  destruct (existsb _ _); [|discriminate].
  intros [= <-]. cbn. now rewrite String.eqb_refl.
Defined.

(** ** The role, the authorizer and the accounts *)

(** X10: the role is for the event service, and its one policy allows one
    action, to invoke an API destination, on one resource, which names the
    destination and no other construct; the target of the rule runs under
    this role and points at this destination. *)
Theorem role_invokes_the_destination_only
    (dirname : string) (join : string -> string -> string)
    (env : string -> option string)
    (GraphqlApi_apiKey : string -> GraphqlApi.Props -> option tstring)
    (scope id : string) (props : option StackProps.t) :
  exists ro st res r t,
    child "role" (MainStack dirname join env GraphqlApi_apiKey scope id props).2
      = Some (Role_ "role" ro) /\
    Role.assumedBy ro = servicePrincipal "events.amazonaws.com" /\
    Role.inlinePolicies ro = [("invokeAPI", {| Role.statements := [st] |})] /\
    Role.actions st = ["events:InvokeApiDestination"] /\
    Role.resources st = [res] /\
    res = template [lit "arn:aws:events:"; this "region"; lit ":"; this "account";
                    lit ":api-destination/"; attr "destination" "ref"; lit "/*"] /\
    constructs_in res = ["destination"] /\
    rules (MainStack dirname join env GraphqlApi_apiKey scope id props).2 = [r] /\
    CfnRule.targets r = [t] /\
    constructs_in (CfnRule.roleArn t) = ["role"] /\
    constructs_in (CfnRule.arn t) = constructs_in res.
Proof.
  do 5 eexists.
  split; [run_constructor; reflexivity|].
  do 6 (split; [reflexivity|]).
  split; [apply tree_rules|].
  repeat split; reflexivity.
Qed.

(** X11: the API has two authorization modes, the key by default and the
    authorizer function besides; the function the API calls is the function
    whose invocation is permitted, to the GraphQL service, for this API. *)
Theorem authorizer_is_the_permitted_function
    (dirname : string) (join : string -> string -> string)
    (env : string -> option string)
    (GraphqlApi_apiKey : string -> GraphqlApi.Props -> option tstring)
    (scope id : string) (props : option StackProps.t) :
  exists g f fn pm,
    child "Api" (MainStack dirname join env GraphqlApi_apiKey scope id props).2
      = Some (GraphqlApi_ "Api" g) /\
    map (λ m, (GraphqlApi.authorizationType m,
               GraphqlApi.handler <$> GraphqlApi.lambdaAuthorizerConfig m))
        (GraphqlApi.modes (GraphqlApi.authorizationConfig g))
      = [(API_KEY, None); (LAMBDA, Some f)] /\
    child f (MainStack dirname join env GraphqlApi_apiKey scope id props).2
      = Some (PythonFunction_ f fn) /\
    List.filter (λ c, match c with Permission_ _ _ _ => true | _ => false end)
      (children (MainStack dirname join env GraphqlApi_apiKey scope id props).2)
      = [Permission_ f "AppSyncInvokeLambdaPermission" pm] /\
    Permission.principal pm = servicePrincipal "appsync.amazonaws.com" /\
    Permission.sourceArn pm = attr "Api" "arn".
Proof.
  do 4 eexists.
  split; [run_constructor; reflexivity|].
  split; [reflexivity|].
  split; [run_constructor; reflexivity|].
  split; [run_constructor; reflexivity|].
  split; reflexivity.
Qed.

(** X12: the authorizer function is given the user pool and the client of
    the auth construct, and its client is the client the connection
    presents when it asks for a token. *)
Theorem authorizer_checks_the_connection_client
    (dirname : string) (join : string -> string -> string)
    (env : string -> option string)
    (GraphqlApi_apiKey : string -> GraphqlApi.Props -> option tstring)
    (scope id : string) (props : option StackProps.t) :
  exists fn c client,
    child "AuthorizerFunction" (MainStack dirname join env GraphqlApi_apiKey scope id props).2
      = Some (PythonFunction_ "AuthorizerFunction" fn) /\
    connections (MainStack dirname join env GraphqlApi_apiKey scope id props).2 = [c] /\
    map fst (PythonFunction.environment fn) = ["USER_POOL_ID"; "APP_CLIENT_ID"] /\
    EventBridge.assoc "USER_POOL_ID" (PythonFunction.environment fn)
      = Some (attr "Auth" "userPoolId") /\
    EventBridge.assoc "APP_CLIENT_ID" (PythonFunction.environment fn) = Some client /\
    client = attr "Auth" "destinationClientId" /\
    CfnConnection.ClientID
      (CfnConnection.ClientParameters_
         (CfnConnection.OAuthParameters_ (CfnConnection.authParameters c))) = client.
Proof.
  do 3 eexists.
  split; [run_constructor; reflexivity|].
  split; [run_constructor; reflexivity|].
  repeat split; reflexivity.
Qed.

Lemma or_else_cases a b :
  (forall s, a = Some s -> s <> EmptyString -> JS.or_else a b = Some s) /\
  (a = None \/ a = Some EmptyString -> JS.or_else a b = b).
Proof.
  split.
  - intros s -> Hs. unfold JS.or_else.
    destruct (String.eqb_spec s EmptyString); [contradiction | reflexivity].
  - intros [-> | ->]; reflexivity.
Qed.

(** X13: the permission is for the account of CDK_DEPLOYED_ACCOUNT when
    that variable is set and not empty, and for whatever CDK_DEFAULT_ACCOUNT
    holds otherwise, which may be nothing. *)
Theorem permission_source_account
    (dirname : string) (join : string -> string -> string)
    (env : string -> option string)
    (GraphqlApi_apiKey : string -> GraphqlApi.Props -> option tstring)
    (scope id : string) (props : option StackProps.t) :
  exists pm,
    child "AuthorizerFunction/AppSyncInvokeLambdaPermission"
      (MainStack dirname join env GraphqlApi_apiKey scope id props).2
      = Some (Permission_ "AuthorizerFunction" "AppSyncInvokeLambdaPermission" pm) /\
    (forall a, env "CDK_DEPLOYED_ACCOUNT" = Some a -> a <> EmptyString ->
               Permission.sourceAccount pm = Some a) /\
    (env "CDK_DEPLOYED_ACCOUNT" = None \/ env "CDK_DEPLOYED_ACCOUNT" = Some EmptyString ->
     Permission.sourceAccount pm = env "CDK_DEFAULT_ACCOUNT").
Proof.
  eexists. split; [run_constructor; reflexivity|].
  cbn [Permission.sourceAccount]. apply or_else_cases.
Qed.

(** ** The request template and the other arguments *)

(** X14: the request template leaves every argument but createdAt and
    updatedAt as the request has it, adds these two keys to the keys of the
    arguments and no other, replaces what the request may hold under them,
    and leaves the result of the context alone. *)
Theorem request_template_keeps_other_arguments
    (now : nat -> string) (toJson : json -> string) (σ : VTL.state) :
  exists out σ',
    VTL.run now toJson requestTemplate σ = Some (out, σ') /\
    (forall k, k <> "createdAt" -> k <> "updatedAt" ->
               VTL.args σ' !! k = VTL.args σ !! k) /\
    dom (VTL.args σ') = {[ "createdAt"; "updatedAt" ]} ∪ dom (VTL.args σ) /\
    (forall old, VTL.args σ !! "createdAt" = Some old ->
                 VTL.args σ' !! "createdAt" = Some (JStr (now (VTL.reads σ)))) /\
    VTL.result σ' = VTL.result σ.
Proof.
  do 2 eexists. split; [apply run_requestTemplate|].
  cbn [VTL.args VTL.result]. unfold stamped.
  split; [|split; [|split]].
  - intros k H1 H2. now rewrite !lookup_insert_ne.
  - rewrite !dom_insert_L, union_assoc_L.
    now rewrite (union_comm_L {["updatedAt"]} {["createdAt"]}).
  - intros old _. rewrite lookup_insert_ne by done. apply lookup_insert_eq.
  - reflexivity.
Qed.

(** ** The input transformer and its template *)

(** X15: the placeholders of the input template are the keys of the paths
    map, each once and in the order of the map; the text between them has
    no angle bracket left, so no placeholder stays unfilled; and every path
    of the map is a path into the detail of the event. *)
Theorem placeholders_are_the_paths
    (dirname : string) (join : string -> string -> string)
    (env : string -> option string)
    (GraphqlApi_apiKey : string -> GraphqlApi.Props -> option tstring)
    (scope id : string) (props : option StackProps.t) :
  exists r t,
    rules (MainStack dirname join env GraphqlApi_apiKey scope id props).2 = [r] /\
    CfnRule.targets r = [t] /\
    holes (EventBridge.pieces
             (map fst (CfnRule.inputPathsMap (CfnRule.inputTransformer t)))
             (CfnRule.inputTemplate (CfnRule.inputTransformer t)))
      = map fst (CfnRule.inputPathsMap (CfnRule.inputTransformer t)) /\
    NoDup (map fst (CfnRule.inputPathsMap (CfnRule.inputTransformer t))) /\
    existsb (λ s, has_char "<" s || has_char ">" s)
      (texts (EventBridge.pieces
                (map fst (CfnRule.inputPathsMap (CfnRule.inputTransformer t)))
                (CfnRule.inputTemplate (CfnRule.inputTransformer t)))) = false /\
    map (λ kp, EventBridge.path_keys kp.2)
        (CfnRule.inputPathsMap (CfnRule.inputTransformer t))
      = [Some ["detail"; "todo-id"]; Some ["detail"; "name"];
         Some ["detail"; "description"]].
Proof.
  do 2 eexists. split; [apply tree_rules|]. split; [reflexivity|].
  cbn [CfnRule.inputTransformer CfnRule.inputPathsMap CfnRule.inputTemplate map fst].
  rewrite inputTemplate_pieces.
  split; [reflexivity|].
  split; [apply (bool_decide_unpack _); vm_compute; exact I|].
  split; vm_compute; reflexivity.
Qed.

Lemma UpdateTodo_request_single_line i n d :
  has_newline (UpdateTodo_request i n d)
  = has_newline i || has_newline n || has_newline d.
Proof.
  change (UpdateTodo_request i n d) with
    (("{ " +:+ q "query" +:+ ": " +:+ q UpdateTodo_mutation +:+ ", "
      +:+ q "variables" +:+ ": { " +:+ q "id" +:+ ": " +:+ DQ)
     +:+ i +:+ (DQ +:+ ", " +:+ q "name" +:+ ": " +:+ DQ)
     +:+ n +:+ (DQ +:+ ", " +:+ q "description" +:+ ": " +:+ DQ)
     +:+ d +:+ (DQ +:+ " } }")).
  rewrite !has_newline_append.
  replace (has_newline (DQ +:+ " } }")) with false by reflexivity.
  replace (has_newline (DQ +:+ ", " +:+ q "description" +:+ ": " +:+ DQ))
    with false by reflexivity.
  replace (has_newline (DQ +:+ ", " +:+ q "name" +:+ ": " +:+ DQ))
    with false by reflexivity.
  replace (has_newline ("{ " +:+ q "query" +:+ ": " +:+ q UpdateTodo_mutation +:+ ", "
                        +:+ q "variables" +:+ ": { " +:+ q "id" +:+ ": " +:+ DQ))
    with false by (vm_compute; reflexivity).
  now destruct (has_newline i), (has_newline n), (has_newline d).
Qed.

(** X16: the body of the request is a single line exactly when the three
    values printed into it are: the template brings no newline of its own,
    for any event. *)
Theorem request_body_single_line
    (dirname : string) (join : string -> string -> string)
    (env : string -> option string)
    (GraphqlApi_apiKey : string -> GraphqlApi.Props -> option tstring)
    (scope id : string) (props : option StackProps.t) :
  exists r t,
    rules (MainStack dirname join env GraphqlApi_apiKey scope id props).2 = [r] /\
    CfnRule.targets r = [t] /\
    forall print event,
      has_newline (EventBridge.transform print (CfnRule.inputTransformer t) event)
      = has_newline (print (EventBridge.extract "$.detail.todo-id" event))
        || has_newline (print (EventBridge.extract "$.detail.name" event))
        || has_newline (print (EventBridge.extract "$.detail.description" event)).
Proof.
  do 2 eexists. split; [apply tree_rules|]. split; [reflexivity|].
  intros print event. cbn [CfnRule.inputTransformer].
  rewrite transform_UpdateTodo. apply UpdateTodo_request_single_line.
Qed.
